(** * Ansible plugins: the deploy_config action plugin and the linux_utils filters

    A shallow embedding of
      - [action_plugins/deploy_config.py] ([ActionModule.run]), and
      - [filter_plugins/linux_utils.py] ([octal_to_symbolic],
        [symbolic_to_octal], [calculate_disk_usage_percent]),
    followed by the properties of the deploy / validate / roll-back workflow
    and of the filters. *)

From Stdlib Require Import ZArith Lia Ascii String.
From Stdlib Require Import Floats.PrimFloat Floats.SpecFloat Floats.FloatOps.
From stdpp Require Import gmap strings list pretty.

Local Open Scope string_scope.

(** ** Python values that travel in dictionaries *)

(** The values stored in the result dictionary and in module arguments:
    booleans ([failed], [changed], [remote_src]) and text. *)
Inductive pyval : Type :=
  | PyBool (b : bool)
  | PyStr (s : string).

#[global] Instance pyval_eq_dec : EqDecision pyval.
Proof. solve_decision. Defined.

(** A Python [dict] with string keys. *)
Abbreviation dict := (gmap string pyval).

(** Python truthiness of an optional text ([None] and [''] are falsy). *)
Definition truthy_str (o : option string) : bool :=
  match o with
  | Some s => negb (String.eqb s "")
  | None => false
  end.

(** Python truthiness of the value of [d.get(k)] for a boolean entry. *)
Definition truthy_bool (o : option bool) : bool := default false o.

(** [str(x)] as an f-string renders an optional text: [None] prints as
    the word None. *)
Definition fmt (o : option string) : string := default "None" o.

(** ** The action plugin [deploy_config] *)

Module Deploy.

(** *** Task arguments: [self._task.args]

    The requests covered are those whose [src], [dest], [validate],
    [owner], [group] and [mode] are text or absent, and whose [backup] is
    a boolean or absent. *)

Record task_args : Type := TaskArgs {
  arg_src : option string;
  arg_dest : option string;
  arg_validate : option string;
  arg_backup : option bool;      (* absent: defaults to True *)
  arg_owner : option string;
  arg_group : option string;
  arg_mode : option string
}.

(** *** Calls to [self._execute_module] and what they return *)

Record call : Type := Call {
  module_name : string;
  module_args : dict
}.

#[global] Instance call_eq_dec : EqDecision call.
Proof. solve_decision. Defined.

(** The [stat] entry of a [stat] module result. *)
Record stat_info : Type := StatInfo {
  st_exists : option bool;
  st_checksum : option string
}.

(** The dictionary a module returns, read through the keys the plugin
    looks at; [None] is an absent key. *)
Record reply : Type := Reply {
  r_stat : option stat_info;
  r_failed : option bool;
  r_msg : option string;
  r_changed : option bool;
  r_rc : option Z;
  r_stdout : option string;
  r_stderr : option string
}.

Definition empty_reply : reply := Reply None None None None None None None.

(** Exceptions, as the two [except] clauses of [run] tell them apart;
    the text is [str(e)]. *)
Inductive exn : Type :=
  | AnsibleActionFail (msg : string)
  | OtherException (msg : string).

Inductive outcome (A : Type) : Type :=
  | Returns (a : A)
  | Raises (e : exn).
Arguments Returns {A} a.
Arguments Raises {A} e.

(** One remote operation of a run: the call, how it ended, and the
    managed host as the operation left it. *)
Record event (W : Type) : Type := Event {
  ev_call : call;
  ev_outcome : outcome reply;
  ev_after : W
}.
Arguments Event {W} _ _ _.
Arguments ev_call {W} e.
Arguments ev_outcome {W} e.
Arguments ev_after {W} e.

(** *** The host runtime

    What [run] gets from the orchestration runtime. [W] is the state of
    the managed host as the modules see it; every module execution may
    change it. Of the base class only the dictionary its [run] returned
    is kept: what that call does on the managed host before the
    arguments are read is not part of [W], and a run whose base call
    raises is not covered. *)
Record host (W : Type) : Type := Host {
  (* the dictionary super(ActionModule, self).run(tmp, task_vars) returned *)
  base_run : dict;
  (* self._find_needle(dirname, needle) *)
  find_needle : string -> string -> outcome string;
  (* open(path, 'rb').read() *)
  read_file : string -> outcome (list Byte.byte);
  (* hashlib.md5(data).hexdigest() *)
  md5_hexdigest : list Byte.byte -> string;
  (* self._execute_module(module_name, module_args, task_vars) *)
  execute_module : W -> call -> outcome reply * W
}.
Arguments base_run {W} h.
Arguments find_needle {W} h.
Arguments read_file {W} h.
Arguments md5_hexdigest {W} h.
Arguments execute_module {W} h.

(** *** Python's [str.replace(old, new)] for a non-empty [old]

    A left-to-right scan; at an occurrence of [old] the replacement is
    emitted and the scan resumes after the occurrence. [skip] counts the
    characters of a matched occurrence still to be passed over. *)
Fixpoint replace_from (old new : string) (skip : nat) (s : string) : string :=
  match s with
  | EmptyString => EmptyString
  | String c rest =>
      match skip with
      | S k => replace_from old new k rest
      | O =>
          if String.prefix old s
          then new +:+ replace_from old new (String.length old - 1) rest
          else String c (replace_from old new 0 rest)
      end
  end.

Definition str_replace (old new s : string) : string :=
  replace_from old new 0 s.

(** *** The state of one run *)

Section Run.
Context {W : Type} (h : host W).

Record state : Type := State {
  result : dict;          (* the mutable result dictionary *)
  world : W;              (* the managed host *)
  trace : list (event W)  (* remote operations issued so far, oldest first *)
}.

(** Why the body of the [try] stopped early. *)
Inductive stop : Type :=
  | Return           (* return result *)
  | Raise (e : exn).

Definition M (A : Type) : Type := state -> (A + stop) * state.

#[export] Instance M_ret : MRet M := fun A a st => (inl a, st).

#[export] Instance M_bind : MBind M := fun A B k m st =>
  match m st with
  | (inl a, st') => k a st'
  | (inr s, st') => (inr s, st')
  end.

(** [result[k] = v] *)
Definition set_result (k : string) (v : pyval) : M unit :=
  fun st => (inl tt, State (<[k := v]> (result st)) (world st) (trace st)).

(** [return result] *)
Definition return_result {A} : M A := fun st => (inr Return, st).

(** A local computation that may raise. *)
Definition lift {A} (o : outcome A) : M A :=
  fun st =>
    match o with
    | Returns a => (inl a, st)
    | Raises e => (inr (Raise e), st)
    end.

(** [self._execute_module(module_name=..., module_args=..., task_vars=...)] *)
Definition exec (c : call) : M reply :=
  fun st =>
    let '(o, w') := execute_module h (world st) c in
    let st' := State (result st) w' (trace st ++ [Event c o w']) in
    match o with
    | Returns r => (inl r, st')
    | Raises e => (inr (Raise e), st')
    end.

Definition when (b : bool) (m : M unit) : M unit :=
  if b then m else mret tt.

(** *** The module calls [run] builds *)

Definition stat_call (dest : string) : call :=
  Call "stat" {[ "path" := PyStr dest ]}.

Definition backup_path (dest : string) : string := dest +:+ ".backup".

Definition backup_call (dest : string) : call :=
  Call "copy" (<["src" := PyStr dest]>
              (<["dest" := PyStr (backup_path dest)]>
              (<["remote_src" := PyBool true]> ∅))).

Definition add_if_truthy (k : string) (o : option string) (d : dict) : dict :=
  match o with
  | Some s => if truthy_str o then <[k := PyStr s]> d else d
  | None => d
  end.

Definition copy_args (a : task_args) (source dest : string) : dict :=
  add_if_truthy "mode" (arg_mode a)
    (add_if_truthy "group" (arg_group a)
      (add_if_truthy "owner" (arg_owner a)
        (<["src" := PyStr source]> (<["dest" := PyStr dest]> ∅)))).

Definition copy_call (a : task_args) (source dest : string) : call :=
  Call "copy" (copy_args a source dest).

Definition command_call (cmd : string) : call :=
  Call "command" {[ "_raw_params" := PyStr cmd ]}.

Definition restore_call (backup_file dest : string) : call :=
  Call "copy" (<["src" := PyStr backup_file]>
              (<["dest" := PyStr dest]>
              (<["remote_src" := PyBool true]> ∅))).

Definition remove_call (backup_file : string) : call :=
  Call "file" (<["path" := PyStr backup_file]>
              (<["state" := PyStr "absent"]> ∅)).

(** [stat_result.get('stat', {}).get('exists', False)] *)
Definition dest_exists (stat_result : reply) : bool :=
  default false
    (st_exists (default (StatInfo None None) (r_stat stat_result))).

(** [validate_result.get('rc', 0) != 0] *)
Definition rc_nonzero (r : reply) : bool :=
  negb (Z.eqb (default 0%Z (r_rc r)) 0).

(** *** [ActionModule.run]: the body of the [try]

    The calls to [display.vvv] and [display.warning] only log; they are
    left out. *)

(** Step 4: back up the existing file if requested; yields [backup_file]. *)
Definition step_backup (backup dest_exists : bool) (dest : string)
  : M (option string) :=
  if backup && dest_exists then
    backup_result ← exec (backup_call dest);
    when (truthy_bool (r_failed backup_result))
      (set_result "failed" (PyBool true) ;;
       set_result "msg" (PyStr ("Backup failed: " +:+ fmt (r_msg backup_result))) ;;
       return_result) ;;
    set_result "backup_file" (PyStr (backup_path dest)) ;;
    mret (Some (backup_path dest))
  else mret None.

(** Step 6: validate the deployed configuration, rolling back on failure. *)
Definition step_validate (validate_cmd backup_file : option string)
    (dest : string) : M unit :=
  match validate_cmd with
  | Some template =>
      if truthy_str validate_cmd then
        validate_result ← exec (command_call (str_replace "%s" dest template));
        when (rc_nonzero validate_result)
          (match backup_file with
           | Some bf =>
               if truthy_str backup_file
               then _ ← exec (restore_call bf dest); mret tt
               else mret tt
           | None => mret tt
           end ;;
           set_result "failed" (PyBool true) ;;
           set_result "msg"
             (PyStr ("Validation failed: " +:+
                     default "Unknown error" (r_stderr validate_result))) ;;
           set_result "validation_output"
             (PyStr (default "" (r_stdout validate_result))) ;;
           return_result) ;;
        set_result "validation" (PyStr "passed") ;;
        set_result "validation_output"
          (PyStr (default "" (r_stdout validate_result)))
      else mret tt
  | None => mret tt
  end.

(** Step 7: remove the backup if everything succeeded and it is not needed. *)
Definition step_cleanup (backup : bool) (backup_file : option string) : M unit :=
  match backup_file with
  | Some bf =>
      if truthy_str backup_file && negb backup
      then _ ← exec (remove_call bf); mret tt
      else mret tt
  | None => mret tt
  end.

Definition try_body (a : task_args) (source0 dest : string) : M unit :=
  let backup := default true (arg_backup a) in
  (* Step 1: find the source file on the control node *)
  source ← lift (find_needle h "files" source0);
  (* Step 2: checksum of the source file *)
  data ← lift (read_file h source);
  let source_checksum := md5_hexdigest h data in
  (* Step 3: does the destination exist? *)
  stat_result ← exec (stat_call dest);
  (* Step 4 *)
  backup_file ← step_backup backup (dest_exists stat_result) dest;
  (* Step 5: copy the file to the remote host *)
  copy_result ← exec (copy_call a source dest);
  when (truthy_bool (r_failed copy_result))
    (set_result "failed" (PyBool true) ;;
     set_result "msg" (PyStr ("Copy failed: " +:+ fmt (r_msg copy_result))) ;;
     return_result) ;;
  set_result "changed" (PyBool (default false (r_changed copy_result))) ;;
  set_result "dest" (PyStr dest) ;;
  set_result "checksum" (PyStr source_checksum) ;;
  (* Step 6 *)
  step_validate (arg_validate a) backup_file dest ;;
  (* Step 7 *)
  step_cleanup backup backup_file ;;
  set_result "msg"
    (PyStr ("Successfully deployed " +:+ source +:+ " to " +:+ dest)).

(** The two [except] clauses. *)
Definition handle (e : exn) (st : state) : state :=
  let msg :=
    match e with
    | AnsibleActionFail m => m
    | OtherException m => "Unexpected error: " +:+ m
    end in
  State (<["msg" := PyStr msg]> (<["failed" := PyBool true]> (result st)))
        (world st) (trace st).

(** [result['failed'] = True; result['msg'] = msg] *)
Definition failed_with (msg : string) (st : state) : state :=
  State (<["msg" := PyStr msg]> (<["failed" := PyBool true]> (result st)))
        (world st) (trace st).

(** [ActionModule.run]: the final state holds the returned dictionary,
    the managed host after the run and the remote operations issued. *)
Definition run (a : task_args) (w : W) : state :=
  let st0 := State (base_run h) w [] in
  match arg_src a with
  | None => failed_with "src is required" st0
  | Some source0 =>
      match arg_dest a with
      | None => failed_with "dest is required" st0
      | Some dest =>
          match try_body a source0 dest st0 with
          | (inr (Raise e), st) => handle e st
          | (_, st) => st
          end
      end
  end.

(** *** Reading a finished run *)

(** [c] was executed during the run and returned [r]. *)
Definition replied (st : state) (c : call) (r : reply) : Prop :=
  exists w', Event c (Returns r) w' ∈ trace st.

(** The calls issued, oldest first. *)
Definition calls (st : state) : list call := ev_call <$> trace st.

(** How many times [c] was issued. *)
Definition times_issued (c : call) (st : state) : nat :=
  length (filter (fun c' => c' = c) (calls st)).

(** Every remote operation of the run returned a result: none raised. *)
Definition all_returned (st : state) : Prop :=
  Forall (fun ev => exists r, ev_outcome ev = Returns r) (trace st).

(** An operation that deletes a file: the [file] module with
    [state: absent]. *)
Definition is_removal (c : call) : bool :=
  String.eqb (module_name c) "file" &&
  bool_decide (module_args c !! "state" = Some (PyStr "absent")).

(** The event after which the backup may go: with a validation command,
    that command returning exit code zero; without one, the copy onto
    the destination returning without failure. *)
Definition clears (validating : bool) (dest : string) (ev : event W) : bool :=
  match ev_outcome ev with
  | Returns r =>
      if validating
      then String.eqb (module_name (ev_call ev)) "command" && negb (rc_nonzero r)
      else String.eqb (module_name (ev_call ev)) "copy" &&
           bool_decide (module_args (ev_call ev) !! "dest" = Some (PyStr dest)) &&
           bool_decide (module_args (ev_call ev) !! "remote_src" = None) &&
           negb (truthy_bool (r_failed r))
  | Raises _ => false
  end.

(** A monitor for traces: no removal is issued before a clearing event.
    [cleared] tells whether a clearing event has been seen. *)
Fixpoint removal_guarded (validating : bool) (dest : string) (cleared : bool)
    (tr : list (event W)) : bool :=
  match tr with
  | [] => true
  | ev :: tr' =>
      if is_removal (ev_call ev)
      then cleared && removal_guarded validating dest cleared tr'
      else removal_guarded validating dest
             (cleared || clears validating dest ev) tr'
  end.

End Run.

(** *** What the host's modules are expected to do

    [remote_bytes w p] reads the file at [p] on the managed host [w]. *)
Section Contracts.
Context {W : Type} (h : host W)
        (remote_bytes : W -> string -> option (list Byte.byte)).


(** The [command] module, as used for validation: it only checks. *)
Definition command_reads_only : Prop :=
  forall (w w' : W) (c : call) (o : outcome reply) (p : string),
    execute_module h w c = (o, w') ->
    module_name c = "command" ->
    remote_bytes w' p = remote_bytes w p.

End Contracts.

(** *** The substitution of the token, in the spec's words

    The template cut at every occurrence of the token [%s]: the pieces
    between the occurrences, in order. *)
Fixpoint pieces (template : string) : list string :=
  match template with
  | EmptyString => [EmptyString]
  | String "%"%char (String "s"%char rest) => EmptyString :: pieces rest
  | String c rest =>
      match pieces rest with
      | p :: ps => String c p :: ps
      | [] => [String c EmptyString]
      end
  end.

(** [tok] occurs in [s]. *)
Definition occurs (tok s : string) : Prop :=
  exists pre post, s = pre +:+ tok +:+ post.

(** [str(e)] as the [except] clauses report it. *)
Definition reported (e : exn) : string :=
  match e with
  | AnsibleActionFail m => m
  | OtherException m => "Unexpected error: " +:+ m
  end.

(** *** More of what the host's modules are expected to do *)
Section FileContracts.
Context {W : Type} (h : host W)
        (remote_bytes : W -> string -> option (list Byte.byte)).

(** The [stat] module only looks. *)
Definition stat_reads_only : Prop :=
  forall (w w' : W) (c : call) (o : outcome reply) (p : string),
    execute_module h w c = (o, w') ->
    module_name c = "stat" ->
    remote_bytes w' p = remote_bytes w p.

(** The [copy] module with [remote_src]: when it returns without
    failure, the destination holds what the remote source held. *)
Definition copy_duplicates_remote : Prop :=
  forall (w w' : W) (c : call) (r : reply) (src dst : string),
    execute_module h w c = (Returns r, w') ->
    module_name c = "copy" ->
    module_args c !! "src" = Some (PyStr src) ->
    module_args c !! "dest" = Some (PyStr dst) ->
    module_args c !! "remote_src" = Some (PyBool true) ->
    truthy_bool (r_failed r) = false ->
    remote_bytes w' dst = remote_bytes w src.

(** The [copy] module writes no file but its destination. *)
Definition copy_writes_destination_only : Prop :=
  forall (w w' : W) (c : call) (o : outcome reply) (dst p : string),
    execute_module h w c = (o, w') ->
    module_name c = "copy" ->
    module_args c !! "dest" = Some (PyStr dst) ->
    p <> dst ->
    remote_bytes w' p = remote_bytes w p.

End FileContracts.

End Deploy.

(** ** Concrete hosts, for running the workflow on examples *)

Module Hosts.
Import Deploy.

(** A stand-in for the digest on the hosts below: the data itself, read
    as text. *)
Definition toy_digest (data : list Byte.byte) : string :=
  String.concat "" (map (fun b => String (Ascii.ascii_of_byte b) "") data).

(** A scripted host: the managed host is the list of outcomes still to
    be handed out, one per module execution. *)
Definition scripted (found : outcome string) (data : outcome (list Byte.byte))
  : host (list (outcome reply)) :=
  Host _ ∅ (fun _ _ => found) (fun _ => data) toy_digest
    (fun w _ =>
       match w with
       | o :: rest => (o, rest)
       | [] => (Returns empty_reply, [])
       end).

Definition stat_exists (b : bool) : reply :=
  Reply (Some (StatInfo (Some b) None)) None None None None None None.

Definition module_ok (changed : bool) : reply :=
  Reply None None None (Some changed) None None None.

Definition module_failed (msg : string) : reply :=
  Reply None (Some true) (Some msg) None None None None.

Definition command_result (rc : Z) (out err : string) : reply :=
  Reply None None None (Some true) (Some rc) (Some out) (Some err).

(** The text under key [k] of a call's arguments. *)
Definition text_arg (c : call) (k : string) : string :=
  match module_args c !! k with
  | Some (PyStr s) => s
  | _ => ""
  end.

(** A simulated managed host: its state is the remote file system.
    [local] is the control node's file system and [exit_code] decides
    how a command ends. *)
Definition simulated (local : gmap string (list Byte.byte))
    (exit_code : string -> Z)
  : host (gmap string (list Byte.byte)) :=
  Host _ ∅
    (fun _ needle => Returns ("/files/" +:+ needle))
    (fun path =>
       match local !! path with
       | Some data => Returns data
       | None => Raises (OtherException "No such file or directory")
       end)
    toy_digest
    (fun fs c =>
       if String.eqb (module_name c) "stat" then
         (Returns (stat_exists (bool_decide (is_Some (fs !! text_arg c "path")))),
          fs)
       else if String.eqb (module_name c) "copy" then
         let source :=
           match module_args c !! "remote_src" with
           | Some (PyBool true) => fs !! text_arg c "src"
           | _ => local !! text_arg c "src"
           end in
         match source with
         | Some data =>
             (Returns (module_ok true), <[text_arg c "dest" := data]> fs)
         | None => (Returns (module_failed "Source not found"), fs)
         end
       else if String.eqb (module_name c) "command" then
         (Returns (command_result (exit_code (text_arg c "_raw_params")) "" ""),
          fs)
       else if String.eqb (module_name c) "file" then
         (Returns (module_ok true), delete (text_arg c "path") fs)
       else (Returns (module_failed "no such module"), fs)).

(** Reading a file of the simulated managed host. *)
Definition read_remote (fs : gmap string (list Byte.byte)) (p : string)
  : option (list Byte.byte) := fs !! p.

Definition nginx_args : task_args :=
  TaskArgs (Some "nginx.conf") (Some "/etc/nginx/nginx.conf")
           (Some "nginx -t -c %s") (Some true) None None None.

(** A scripted host on which the source file is found and read. *)
Definition found : host (list (outcome reply)) :=
  scripted (Returns "/files/nginx.conf") (Returns [Byte.x65; Byte.x76]).

(** The same request with [backup: false]. *)
Definition nginx_args_no_backup : task_args :=
  TaskArgs (Some "nginx.conf") (Some "/etc/nginx/nginx.conf")
           (Some "nginx -t -c %s") (Some false) None None None.

Definition nginx_local : gmap string (list Byte.byte) :=
  {[ "/files/nginx.conf" := [Byte.x65; Byte.x76; Byte.x3b] ]}.

Definition nginx_remote : gmap string (list Byte.byte) :=
  {[ "/etc/nginx/nginx.conf" := [Byte.x6f; Byte.x6c; Byte.x64] ]}.

(** A scripted host on which the source file is not found. *)
Definition missing : host (list (outcome reply)) :=
  scripted (Raises (OtherException "Could not find or access 'nginx.conf'"))
           (Returns []).

(** A request without a validation command. *)
Definition motd_args : task_args :=
  TaskArgs (Some "motd") (Some "/etc/motd") None None
           (Some "root") (Some "") None.



End Hosts.

(** ** The filter plugin [linux_utils] *)

Module Filters.

(** The built-in exceptions the filters meet. *)
Inductive error_kind : Type :=
  | ValueError
  | TypeError
  | ZeroDivisionError
  | OverflowError.

(** What a filter call comes to: a value, the [AnsibleFilterError] it
    raises, with its message, or an exception no [except] clause of the
    filter catches. *)
Inductive filtered (A : Type) : Type :=
  | Value (a : A)
  | AnsibleFilterError (msg : string)
  | Propagates (k : error_kind).
Arguments Value {A} a.
Arguments AnsibleFilterError {A} msg.
Arguments Propagates {A} k.

(** *** Text helpers of the Python runtime *)

(** [s.lstrip('0')] *)
Fixpoint lstrip_zeros (s : string) : string :=
  match s with
  | String "0"%char rest => lstrip_zeros rest
  | _ => s
  end.

(** ASCII white space, as [int()] strips it from ASCII text: tab to
    carriage return, and the space. *)
Definition is_space (c : ascii) : bool :=
  let n := Ascii.nat_of_ascii c in
  (Nat.leb 9 n && Nat.leb n 13) || Nat.eqb n 32.

Fixpoint lstrip_space (s : string) : string :=
  match s with
  | String c rest => if is_space c then lstrip_space rest else s
  | EmptyString => s
  end.

Fixpoint rstrip_space (s : string) : string :=
  match s with
  | String c rest =>
      match rstrip_space rest with
      | EmptyString => if is_space c then EmptyString else String c EmptyString
      | rest' => String c rest'
      end
  | EmptyString => EmptyString
  end.

Definition octal_digit (c : ascii) : option Z :=
  let n := Ascii.nat_of_ascii c in
  if Nat.leb 48 n && Nat.leb n 55 then Some (Z.of_nat (n - 48)) else None.

(** Octal digits with single underscores between them; [after_digit]
    tells whether the previous character was a digit. *)
Fixpoint digits8 (acc : Z) (after_digit : bool) (s : string) : option Z :=
  match s with
  | EmptyString => if after_digit then Some acc else None
  | String "_"%char rest => if after_digit then digits8 acc false rest else None
  | String c rest =>
      match octal_digit c with
      | Some d => digits8 (8 * acc + d) true rest
      | None => None
      end
  end.

(** [int(s, 8)] on text: [None] is a [ValueError]. Surrounding white
    space, a sign, the prefix [0o] and underscores are accepted as
    Python accepts them. *)
Definition int_base8 (s : string) : option Z :=
  let s := rstrip_space (lstrip_space s) in
  let '(neg, s) :=
    match s with
    | String "-"%char rest => (true, rest)
    | String "+"%char rest => (false, rest)
    | _ => (false, s)
    end in
  let s :=
    match s with
    | String "0"%char (String "o"%char rest) | String "0"%char (String "O"%char rest) =>
        match rest with
        | String "_"%char rest' => rest'
        | _ => rest
        end
    | _ => s
    end in
  mag ← digits8 0 false s;
  Some (if neg then - mag else mag)%Z.

Definition digit_char (d : Z) : ascii :=
  Ascii.ascii_of_nat (48 + Z.to_nat d).

(** The octal digits of a non-negative number, most significant first. *)
Fixpoint oct_digits (fuel : nat) (n : Z) (acc : string) : string :=
  let acc' := String (digit_char (n mod 8)) acc in
  match fuel with
  | O => acc'
  | S fuel' => if (n <? 8)%Z then acc' else oct_digits fuel' (n / 8) acc'
  end.

(** [oct(n)] *)
Definition py_oct (n : Z) : string :=
  let digits := oct_digits (Z.to_nat (Z.log2 (Z.abs n))) (Z.abs n) "" in
  if (n <? 0)%Z then "-0o" +:+ digits else "0o" +:+ digits.

(** [s[n:]] *)
Fixpoint str_drop (n : nat) (s : string) : string :=
  match n, s with
  | S n', String _ rest => str_drop n' rest
  | _, _ => s
  end.

(** *** [octal_to_symbolic] *)

(** One [rwx] triple: the body of the loop over the shifts. *)
Definition perm_triple (perm_int : Z) (shift : Z) : string :=
  let bits := Z.land (Z.shiftr perm_int shift) 7 in
  (if Z.eqb (Z.land bits 4) 0 then "-" else "r") +:+
  (if Z.eqb (Z.land bits 2) 0 then "-" else "w") +:+
  (if Z.eqb (Z.land bits 1) 0 then "-" else "x").

Definition octal_to_symbolic (octal_perm : string) : filtered string :=
  let octal_perm := lstrip_zeros octal_perm in
  let octal_perm := if String.eqb octal_perm "" then "0" else octal_perm in
  match int_base8 octal_perm with
  | Some perm_int =>
      Value (String.concat "" (map (perm_triple perm_int) [6; 3; 0]%Z))
  | None =>
      AnsibleFilterError
        ("octal_to_symbolic: Invalid octal '" +:+ octal_perm +:+ "'")
  end.

(** *** [symbolic_to_octal] *)

(** [octal_value += weight] when [symbolic_perm[i] == c]. *)
Definition add_if (symbolic_perm : string) (i : nat) (c : ascii)
    (weight octal_value : Z) : Z :=
  match String.get i symbolic_perm with
  | Some c' => if Ascii.eqb c' c then (octal_value + weight)%Z else octal_value
  | None => octal_value
  end.

Definition symbolic_to_octal (symbolic_perm : string) : filtered string :=
  if negb (Nat.eqb (String.length symbolic_perm) 9) then
    AnsibleFilterError
      ("symbolic_to_octal: Expected 9 characters, got " +:+
       pretty (String.length symbolic_perm))
  else
    let v := 0%Z in
    (* owner *)
    let v := add_if symbolic_perm 0 "r"%char 256 v in
    let v := add_if symbolic_perm 1 "w"%char 128 v in
    let v := add_if symbolic_perm 2 "x"%char 64 v in
    (* group *)
    let v := add_if symbolic_perm 3 "r"%char 32 v in
    let v := add_if symbolic_perm 4 "w"%char 16 v in
    let v := add_if symbolic_perm 5 "x"%char 8 v in
    (* other *)
    let v := add_if symbolic_perm 6 "r"%char 4 v in
    let v := add_if symbolic_perm 7 "w"%char 2 v in
    let v := add_if symbolic_perm 8 "x"%char 1 v in
    Value (str_drop 2 (py_oct v)).

(** The strings the permission filters are meant for: one to three
    octal digits, the first of them not [0]. *)
Definition is_octal_digit (c : ascii) : bool :=
  match octal_digit c with
  | Some _ => true
  | None => false
  end.

Fixpoint all_octal (s : string) : bool :=
  match s with
  | EmptyString => true
  | String c rest => is_octal_digit c && all_octal rest
  end.

Definition octal_mode (s : string) : bool :=
  match s with
  | EmptyString => false
  | String c _ =>
      negb (Ascii.eqb c "0") && Nat.leb (String.length s) 3 && all_octal s
  end.

(** [symbolic_to_octal(octal_to_symbolic(s)) == s], as a check. *)
Definition round_trips (s : string) : bool :=
  match octal_to_symbolic s with
  | Value sym =>
      Nat.eqb (String.length sym) 9 &&
      match symbolic_to_octal sym with
      | Value s' => String.eqb s' s
      | _ => false
      end
  | _ => false
  end.

(** The check, on the strings the filters are meant for. *)
Definition guarded (s : string) : bool :=
  negb (octal_mode s) || round_trips s.

Definition octal_chars : list ascii :=
  ["0"; "1"; "2"; "3"; "4"; "5"; "6"; "7"]%char.

(** *** Numbers of the Python runtime

    Floats are IEEE 754 binary64, as Python's. *)

(** The values a template hands to a numeric filter. *)
Inductive pyobj : Type :=
  | PyNone
  | PyBoolean (b : bool)
  | PyInt (z : Z)
  | PyFloat (f : float)
  | PyText (s : string).

(** A computation of the runtime: a value, or a raised exception. *)
Inductive raised (A : Type) : Type :=
  | Done (a : A)
  | Fails (k : error_kind).
Arguments Done {A} a.
Arguments Fails {A} k.

(** [float(z)] on an integer: the nearest float, ties to even; an
    integer too large for a float raises [OverflowError]. *)
Definition float_of_int (z : Z) : raised float :=
  match binary_normalize prec emax z 0 false with
  | S754_infinity _ => Fails OverflowError
  | sf => Done (SF2Prim sf)
  end.

(** [a / b] on floats. *)
Definition py_truediv (a b : float) : raised float :=
  if PrimFloat.eqb b 0 then Fails ZeroDivisionError else Done (a / b)%float.

(** The quotient [num / den] rounded to the nearest integer, ties to
    even, for a positive [den]. *)
Definition div_half_even (num den : Z) : Z :=
  let '(k, r) := Z.div_eucl num den in
  match Z.compare (2 * r) den with
  | Lt => k
  | Gt => (k + 1)%Z
  | Eq => if Z.even k then k else (k + 1)%Z
  end.

(** [round(x, ndigits)] on a float, for [ndigits >= 0]: the exact value
    of [x] is rounded to [ndigits] decimal places, ties to even, and the
    decimal result is read back as the nearest float. Infinities and
    NaN are returned as they are. *)
Definition py_round (x : float) (ndigits : N) : float :=
  match Prim2SF x with
  | S754_finite s m e =>
      if (323 <? ndigits)%N then x else
      let scale := (10 ^ Z.of_N ndigits)%Z in
      let q :=
        match e with
        | Zneg d => div_half_even (Zpos m * scale) (2 ^ Zpos d)
        | _ => (Zpos m * 2 ^ e * scale)%Z
        end in
      match q, scale with
      | Zpos q', Zpos scale' =>
          SF2Prim (SFdiv prec emax (S754_finite s q' 0)
                         (S754_finite false scale' 0))
      | _, _ => SF2Prim (S754_zero s)
      end
  | _ => x
  end.

(** *** [calculate_disk_usage_percent] *)

Section DiskUsage.

(** [float(s)] on text is the runtime's parser of float literals;
    [None] is a [ValueError]. *)
Variable float_of_text : string -> option float.

(** [float(v)] *)
Definition py_float (v : pyobj) : raised float :=
  match v with
  | PyNone => Fails TypeError
  | PyBoolean b => Done (if b then 1 else 0)%float
  | PyInt z => float_of_int z
  | PyFloat f => Done f
  | PyText s =>
      match float_of_text s with
      | Some f => Done f
      | None => Fails ValueError
      end
  end.

(** [float()] rejects the value: it is not convertible to a number. *)
Definition rejected (v : pyobj) : Prop :=
  py_float v = Fails ValueError \/ py_float v = Fails TypeError.

(** The body of the [try]. *)
Definition usage_percent (used total : pyobj) : raised float :=
  match py_float used with
  | Done used =>
      match py_float total with
      | Done total =>
          if PrimFloat.eqb total 0 then Done 0%float
          else
            match py_truediv used total with
            | Done quotient => Done (py_round (quotient * 100) 2)
            | Fails k => Fails k
            end
      | Fails k => Fails k
      end
  | Fails k => Fails k
  end.

(** [except (ValueError, TypeError, ZeroDivisionError)] *)
Definition caught (k : error_kind) : bool :=
  match k with
  | ValueError | TypeError | ZeroDivisionError => true
  | OverflowError => false
  end.

Definition calculate_disk_usage_percent (used total : pyobj)
  : filtered float :=
  match usage_percent used total with
  | Done v => Value v
  | Fails k =>
      if caught k
      then AnsibleFilterError "calculate_disk_usage_percent: Invalid input"
      else Propagates k
  end.

End DiskUsage.

(** A runtime whose [float()] reads integer literals only: an optional
    sign and decimal digits. An integer literal too large for a float
    reads as an infinity. *)
Fixpoint decimal_digits (acc : Z) (s : string) : option Z :=
  match s with
  | EmptyString => Some acc
  | String c rest =>
      let n := Ascii.nat_of_ascii c in
      if Nat.leb 48 n && Nat.leb n 57
      then decimal_digits (10 * acc + Z.of_nat (n - 48)) rest
      else None
  end.

Definition integer_literal (s : string) : option float :=
  let '(neg, digits) :=
    match s with
    | String "-"%char rest => (true, rest)
    | String "+"%char rest => (false, rest)
    | _ => (false, s)
    end in
  match digits with
  | EmptyString => None
  | _ =>
      z ← decimal_digits 0 digits;
      Some (SF2Prim (binary_normalize prec emax (if neg then - z else z) 0 neg))
  end.

(** *** [format_bytes] *)

(** The unit names; the loop of [format_bytes] walks them. *)
Definition units : list string := ["B"; "KB"; "MB"; "GB"; "TB"; "PB"].

(** The [while] loop: [unit] is [units[unit_index]] and [larger] the
    units after it, so that [unit_index < len(units) - 1] reads: a larger
    unit is left. *)
Fixpoint scale (bytes_value : float) (unit : string) (larger : list string)
  : float * string :=
  match larger with
  | next :: rest =>
      if PrimFloat.leb 1024 bytes_value
      then scale (bytes_value / 1024)%float next rest
      else (bytes_value, unit)
  | [] => (bytes_value, unit)
  end.

(** The digits of [q / 10 ^ precision] with [precision] places. *)
Definition fixed_digits (q : Z) (precision : N) : string :=
  let power := (10 ^ Z.of_N precision)%Z in
  pretty (q / power)%Z +:+
  (if (precision =? 0)%N then ""
   else "." +:+ str_drop 1 (pretty (power + q mod power)%Z)).

(** [format(x, '.<precision>f')] on a float: the exact value rounded to
    [precision] places, ties to even. *)
Definition format_fixed (x : float) (precision : N) : string :=
  match Prim2SF x with
  | S754_nan => "nan"
  | S754_infinity s => if s then "-inf" else "inf"
  | S754_zero s => (if s then "-" else "") +:+ fixed_digits 0 precision
  | S754_finite s m e =>
      let power := (10 ^ Z.of_N precision)%Z in
      let q :=
        match e with
        | Zneg d => div_half_even (Zpos m * power) (2 ^ Zpos d)
        | _ => (Zpos m * 2 ^ e * power)%Z
        end in
      (if s then "-" else "") +:+ fixed_digits q precision
  end.

Section Formatting.

(** [float(s)] on text and [repr(x)] of a float are the runtime's. *)
Variable float_of_text : string -> option float.
Variable float_repr : float -> string.

(** [str(v)] *)
Definition py_str (v : pyobj) : string :=
  match v with
  | PyNone => "None"
  | PyBoolean b => if b then "True" else "False"
  | PyInt z => pretty z
  | PyFloat f => float_repr f
  | PyText s => s
  end.

(** [format_bytes(bytes_value, precision)], for an integer [precision].
    The format specification accepts precisions from 0 to 2 ^ 31 - 1 and
    raises [ValueError] outside, after the [try]. (At 2 ^ 31 - 1 itself
    CPython's output is not the decimal expansion given here.) *)
Definition format_bytes (bytes_value : pyobj) (precision : Z)
  : filtered string :=
  match py_float float_of_text bytes_value with
  | Done value =>
      let '(value, unit) := scale value "B" ["KB"; "MB"; "GB"; "TB"; "PB"] in
      if (precision <? 0)%Z || (2147483647 <? precision)%Z
      then Propagates ValueError
      else Value (format_fixed value (Z.to_N precision) +:+ " " +:+ unit)
  | Fails ValueError | Fails TypeError =>
      AnsibleFilterError
        ("format_bytes: Invalid input '" +:+ py_str bytes_value +:+ "'")
  | Fails k => Propagates k
  end.

(** [format_bytes(k * 1024 ** i)] reads [k.00] and the [i]-th unit, as a
    check. *)
Definition multiple_ok (i k : nat) : bool :=
  match units !! i with
  | Some unit =>
      match format_bytes (PyInt (Z.of_nat k * 1024 ^ Z.of_nat i)) 2 with
      | Value text => String.eqb text (pretty (Z.of_nat k) +:+ ".00 " +:+ unit)
      | _ => false
      end
  | None => true
  end.

End Formatting.

(** *** Well-formed symbolic permissions *)

(** The letter each position of a symbolic permission may carry. *)
Definition letters : list ascii :=
  ["r"; "w"; "x"; "r"; "w"; "x"; "r"; "w"; "x"]%char.

(** A symbolic permission as [symbolic_to_octal] reads it: a position
    that does not carry its letter counts as a dash. *)
Fixpoint read_as (expected : list ascii) (s : string) : string :=
  match expected, s with
  | e :: expected', String c rest =>
      String (if Ascii.eqb c e then e else "-"%char) (read_as expected' rest)
  | _, _ => EmptyString
  end.

Definition normalise (symbolic_perm : string) : string :=
  read_as letters symbolic_perm.

(** [n] zeros. *)
Fixpoint zeros (n : nat) : string :=
  match n with
  | O => EmptyString
  | S n' => String "0"%char (zeros n')
  end.

(** Text is kept as a string of bytes. On ASCII text, the strings below,
    bytes and characters are the same, and [String.length] is [len]. *)
Fixpoint all_ascii (s : string) : bool :=
  match s with
  | EmptyString => true
  | String c rest => (nat_of_ascii c <? 128)%nat && all_ascii rest
  end.

(** Two strings with the same symbolic permission, as a check. *)
Definition same_symbolic (s t : string) : bool :=
  match octal_to_symbolic s, octal_to_symbolic t with
  | Value a, Value b => String.eqb a b
  | _, _ => false
  end.

End Filters.

(** * Properties of the deploy workflow *)

Module DeployFacts.
Import Deploy.
Section Facts.
Context {W : Type} (h : host W).

(** *** Telling the module calls apart *)

Lemma length_append (s t : string) :
  String.length (s +:+ t) = String.length s + String.length t.
Proof. induction s as [|c s IH]; simpl; [done | by rewrite IH]. Qed.

Lemma backup_path_ne (dest : string) : backup_path dest ≠ dest.
Proof.
  intros H. apply (f_equal String.length) in H.
  unfold backup_path in H. rewrite length_append in H. simpl in H. lia.
Qed.

Lemma backup_path_truthy (dest : string) :
  truthy_str (Some (backup_path dest)) = true.
Proof. by destruct dest. Qed.

Lemma add_if_truthy_lookup_ne k k' o (d : dict) :
  k ≠ k' → add_if_truthy k o d !! k' = d !! k'.
Proof.
  intros Hne. unfold add_if_truthy.
  destruct o as [s|]; [|done]. destruct (truthy_str (Some s)); [|done].
  by rewrite lookup_insert_ne.
Qed.

Lemma copy_args_remote_src a source dest :
  copy_args a source dest !! "remote_src" = None.
Proof. unfold copy_args. by rewrite !add_if_truthy_lookup_ne. Qed.

Lemma copy_args_dest a source dest :
  copy_args a source dest !! "dest" = Some (PyStr dest).
Proof. unfold copy_args. by rewrite !add_if_truthy_lookup_ne. Qed.

Lemma copy_args_src a source dest :
  copy_args a source dest !! "src" = Some (PyStr source).
Proof. unfold copy_args. by rewrite !add_if_truthy_lookup_ne. Qed.

Lemma copy_call_ne_backup_call a source dest dest' :
  copy_call a source dest ≠ backup_call dest'.
Proof.
  intros H. apply (f_equal (fun c => module_args c !! "remote_src")) in H.
  simpl in H. by rewrite copy_args_remote_src in H.
Qed.

Lemma copy_call_ne_restore_call a source dest bf dest' :
  copy_call a source dest ≠ restore_call bf dest'.
Proof.
  intros H. apply (f_equal (fun c => module_args c !! "remote_src")) in H.
  simpl in H. by rewrite copy_args_remote_src in H.
Qed.

Lemma restore_call_ne_backup_call dest :
  restore_call (backup_path dest) dest ≠ backup_call dest.
Proof.
  intros H. apply (f_equal (fun c => module_args c !! "src")) in H.
  simpl in H. unfold restore_call, backup_call in H. simpl in H.
  rewrite !lookup_insert_eq in H. injection H as H. by apply backup_path_ne in H.
Qed.

(** *** The substitution of [%s] *)

Lemma str_replace_nil new : str_replace "%s" new "" = "".
Proof. reflexivity. Qed.

Lemma str_replace_token new rest :
  str_replace "%s" new (String "%" (String "s" rest)) =
  new +:+ str_replace "%s" new rest.
Proof.
  unfold str_replace. cbn [replace_from String.prefix String.length Nat.sub].
  destruct (ascii_dec "%" "%") as [_|]; [|done].
  destruct (ascii_dec "s" "s") as [_|]; [|done].
  by destruct rest.
Qed.

Lemma str_replace_other new c rest :
  String.prefix "%s" (String c rest) = false ->
  str_replace "%s" new (String c rest) = String c (str_replace "%s" new rest).
Proof. intros H. unfold str_replace. cbn [replace_from]. by rewrite H. Qed.

Lemma prefix_token_spec s :
  String.prefix "%s" s = true <-> exists rest, s = String "%" (String "s" rest).
Proof.
  split.
  - destruct s as [|c [|c' rest]]; cbn [String.prefix]; try done.
    + by destruct (ascii_dec "%" c).
    + destruct (ascii_dec "%" c) as [<-|]; [|done].
      destruct (ascii_dec "s" c') as [<-|]; [|done]. eauto.
  - intros [rest ->]. cbn [String.prefix].
    destruct (ascii_dec "%" "%") as [_|]; [|done].
    destruct (ascii_dec "s" "s") as [_|]; [|done].
    by destruct rest.
Qed.

(** Induction over text, two characters at a time where the token is. *)
Lemma token_ind (P : string -> Prop) :
  P "" ->
  (forall rest, P rest -> P (String "%" (String "s" rest))) ->
  (forall c rest, String.prefix "%s" (String c rest) = false ->
                  P rest -> P (String c rest)) ->
  forall s, P s.
Proof.
  intros Hnil Htok Hother s.
  assert (H : forall n s, String.length s <= n -> P s).
  { clear s. induction n as [|n IH]; intros s Hlen.
    - destruct s; [done | simpl in Hlen; lia].
    - destruct s as [|c rest]; [done|].
      destruct (String.prefix "%s" (String c rest)) eqn:Hp.
      + apply prefix_token_spec in Hp as [rest' Heq]. rewrite Heq.
        injection Heq as -> ->. apply Htok, IH. simpl in Hlen. lia.
      + apply Hother; [done|]. apply IH. simpl in Hlen. lia. }
  by apply (H (String.length s)).
Qed.

Lemma pieces_token rest :
  pieces (String "%" (String "s" rest)) = "" :: pieces rest.
Proof. reflexivity. Qed.

Lemma pieces_other c rest :
  String.prefix "%s" (String c rest) = false ->
  pieces (String c rest) =
  match pieces rest with
  | p :: ps => String c p :: ps
  | [] => [String c ""]
  end.
Proof.
  intros Hp. cbn [pieces].
  destruct (ascii_dec "%" c) as [<-|Hc].
  - destruct rest as [|c' rest']; [done|].
    destruct (ascii_dec "s" c') as [<-|Hc'].
    + exfalso. apply not_true_iff_false in Hp. apply Hp.
      apply prefix_token_spec. eauto.
    + destruct c' as [[] [] [] [] [] [] [] []]; try done.
  - destruct c as [[] [] [] [] [] [] [] []]; try done.
Qed.

Lemma pieces_nonempty (s : string) : pieces s <> [].
Proof.
  induction s as [|rest IH|c rest Hp IH] using token_ind; [done|done|].
  rewrite pieces_other by done. by destruct (pieces rest).
Qed.

Lemma pieces_join (s : string) : String.concat "%s" (pieces s) = s.
Proof.
  induction s as [|rest IH|c rest Hp IH] using token_ind.
  - reflexivity.
  - rewrite pieces_token. cbn [String.concat].
    destruct (pieces rest) as [|p ps] eqn:E; [by destruct (pieces_nonempty rest)|].
    cbn [String.concat String.append] in *. by rewrite <- IH.
  - rewrite pieces_other by done.
    destruct (pieces rest) as [|p ps] eqn:E; [by destruct (pieces_nonempty rest)|].
    clear Hp. destruct ps; cbn [String.concat String.append] in *; by rewrite <- IH.
Qed.

Lemma str_replace_join (new s : string) :
  str_replace "%s" new s = String.concat new (pieces s).
Proof.
  induction s as [|rest IH|c rest Hp IH] using token_ind.
  - reflexivity.
  - rewrite str_replace_token, pieces_token, IH. cbn [String.concat].
    destruct (pieces rest) as [|p ps] eqn:E; [|done].
    by destruct (pieces_nonempty rest).
  - rewrite str_replace_other, pieces_other, IH by done.
    destruct (pieces rest) as [|p ps] eqn:E;
      [by destruct (pieces_nonempty rest)|].
    by destruct ps.
Qed.

(** No piece contains the token. *)
Lemma prefix_append (tok post : string) :
  String.prefix tok (tok +:+ post) = true.
Proof.
  induction tok as [|a tok IH]; [by destruct post|].
  change (String a tok +:+ post) with (String a (tok +:+ post)).
  cbn [String.prefix]. destruct (ascii_dec a a) as [_|Hn]; [exact IH | by destruct Hn].
Qed.

Lemma occurs_cons tok c s :
  occurs tok (String c s) ->
  String.prefix tok (String c s) = true \/ occurs tok s.
Proof.
  intros [pre [post H]]. destruct pre as [|c' pre].
  - left. change ("" +:+ tok +:+ post) with (tok +:+ post) in H.
    rewrite H. apply prefix_append.
  - right. change (String c' pre +:+ tok +:+ post)
      with (String c' (pre +:+ tok +:+ post)) in H.
    injection H as -> ->. by exists pre, post.
Qed.

Lemma pieces_token_free (s : string) :
  Forall (fun p => ~ occurs "%s" p) (pieces s).
Proof.
  induction s as [|rest IH|c rest Hp IH] using token_ind.
  - constructor; [|done]. intros [pre [post H]]. by destruct pre.
  - rewrite pieces_token. constructor; [|done].
    intros [pre [post H]]. by destruct pre.
  - rewrite pieces_other by done.
    destruct (pieces rest) as [|p ps] eqn:E;
      [by destruct (pieces_nonempty rest)|].
    inversion IH as [|? ? Hfree Hrest]; subst. constructor; [|done].
    intros Hocc. apply occurs_cons in Hocc as [Hpre|Hocc]; [|done].
    apply prefix_token_spec in Hpre as [rest' Heq]. injection Heq as -> ->.
    apply not_true_iff_false in Hp. apply Hp, prefix_token_spec.
    pose proof (pieces_join rest) as Hjoin. rewrite E in Hjoin.
    destruct ps; cbn [String.concat] in Hjoin; rewrite <- Hjoin; eauto.
Qed.

Lemma substitution_by_pieces (dest template : string) :
  template = String.concat "%s" (pieces template) /\
  Forall (fun p => ~ occurs "%s" p) (pieces template) /\
  str_replace "%s" dest template = String.concat dest (pieces template).
Proof.
  split; [by rewrite pieces_join|].
  split; [apply pieces_token_free | apply str_replace_join].
Qed.

(** *** Symbolic execution of [run] *)

Ltac run_unfold H :=
  unfold run, try_body, step_backup, step_validate, step_cleanup, exec,
    lift, when, set_result, return_result, failed_with, handle,
    mbind, M_bind, mret, M_ret in H;
  cbn [arg_src arg_dest arg_validate arg_backup arg_owner arg_group arg_mode] in H.

Ltac run_split H :=
  repeat (
    cbn beta iota zeta delta
      [result world trace app fst snd andb negb from_option id] in H;
    lazymatch type of H with
    | context [find_needle ?h ?d ?s] =>
        let E := fresh "Hfind" in
        destruct (find_needle h d s) as [?source|?e] eqn:E
    | context [read_file ?h ?s] =>
        let E := fresh "Hread" in
        destruct (read_file h s) as [?data|?e] eqn:E
    | context [execute_module ?h ?w ?c] =>
        let E := fresh "Hexec" in
        destruct (execute_module h w c) as [[?r|?e] ?w] eqn:E
    | context [if ?b then _ else _] =>
        let E := fresh "Hif" in destruct b eqn:E
    | context [match ?b with Some _ => _ | None => _ end] =>
        let E := fresh "Hopt" in destruct b eqn:E
    end).

(** All the paths of [run h a w], with the final state computed on each. *)
Ltac run_paths a st :=
  destruct a as [?src ?dest ?validate [[|]|] ?owner ?group ?mode];
  cbn [arg_src arg_dest arg_validate arg_backup arg_owner arg_group arg_mode] in *;
  simplify_eq;
  remember (run _ _ _) as st eqn:Hst;
  match goal with
  | Hrun : st = _ |- _ => run_unfold Hrun; run_split Hrun
  end;
  subst st; cbn [result world trace] in *;
  try match goal with
  | Hdead : _ && false = true |- _ =>
      rewrite andb_false_r in Hdead; discriminate Hdead
  | Hdead : truthy_str (Some (backup_path _)) = false |- _ =>
      rewrite backup_path_truthy in Hdead; discriminate Hdead
  end.


Ltac call_absurd :=
  match goal with
  | H : copy_call _ _ _ = backup_call _ |- _ =>
      destruct (copy_call_ne_backup_call _ _ _ _ H)
  | H : backup_call _ = copy_call _ _ _ |- _ =>
      symmetry in H; destruct (copy_call_ne_backup_call _ _ _ _ H)
  | H : copy_call _ _ _ = restore_call _ _ |- _ =>
      destruct (copy_call_ne_restore_call _ _ _ _ _ H)
  | H : restore_call _ _ = copy_call _ _ _ |- _ =>
      symmetry in H; destruct (copy_call_ne_restore_call _ _ _ _ _ H)
  | H : restore_call (backup_path ?d) ?d = backup_call ?d |- _ =>
      destruct (restore_call_ne_backup_call _ H)
  | H : backup_call ?d = restore_call (backup_path ?d) ?d |- _ =>
      symmetry in H; destruct (restore_call_ne_backup_call _ H)
  | H : @eq call _ _ |- _ => by apply (f_equal module_name) in H
  end.

(** Counting the occurrences of a call in an explicit trace. *)
Ltac count_calls :=
  unfold times_issued, calls;
  cbn [fmap list_fmap ev_call trace];
  repeat (rewrite filter_cons; case_decide; [try call_absurd|]);
  rewrite ?filter_nil; try done.

Ltac event_eq H :=
  let Hc := fresh "Hcall" in
  pose proof (f_equal ev_call H) as Hc; cbn [ev_call] in Hc;
  first [ call_absurd | clear Hc; simplify_eq ].

(** Which event of an explicit trace a membership is about. *)
Ltac events_in H :=
  repeat first
    [ apply elem_of_nil in H; destruct H
    | apply elem_of_cons in H; destruct H as [H|H]; [event_eq H|] ].

(** C4. A request without [src] or without [dest] fails at once, with a
    message naming the missing argument, and no remote operation is
    issued: the run executes no module. *)
Theorem C4_missing_argument (a : task_args) (w : W) :
  arg_src a = None \/ arg_dest a = None ->
  let st := run h a w in
  result st !! "failed" = Some (PyBool true) /\
  (result st !! "msg" = Some (PyStr "src is required") \/
   result st !! "msg" = Some (PyStr "dest is required")) /\
  trace st = [].
Proof.
  intros Hmissing st. subst st. unfold run, failed_with.
  destruct (arg_src a) as [source0|] eqn:Hsrc.
  - destruct Hmissing as [?| ->]; [done|]. cbn [result trace world].
    rewrite lookup_insert_ne, !lookup_insert_eq by done. auto.
  - cbn [result trace world].
    rewrite lookup_insert_ne, !lookup_insert_eq by done. auto.
Qed.

(** C3. Backup requested, the destination exists and the copy to the
    backup path reports failure: the result is failed with the message
    "Backup failed: ...", and no copy onto the destination is issued; the
    run consists of the status check and the backup copy only. *)
Theorem C3_backup_failure_aborts (a : task_args) (w : W)
    (source0 dest : string) (sr br : reply) :
  arg_src a = Some source0 ->
  arg_dest a = Some dest ->
  default true (arg_backup a) = true ->
  let st := run h a w in
  replied st (stat_call dest) sr ->
  dest_exists sr = true ->
  replied st (backup_call dest) br ->
  truthy_bool (r_failed br) = true ->
  result st !! "failed" = Some (PyBool true) /\
  result st !! "msg" = Some (PyStr ("Backup failed: " +:+ fmt (r_msg br))) /\
  (forall ev, ev ∈ trace st ->
     module_name (ev_call ev) = "copy" ->
     module_args (ev_call ev) !! "dest" = Some (PyStr dest) -> False) /\
  calls st = [stat_call dest; backup_call dest].
Proof.
  intros Hsrc Hdest Hbackup st [w1 Hstat] _ [w2 Hbak] Hfailed. subst st.
  run_paths a st; simplify_eq.
  all: events_in Hbak; try congruence.
  all: rewrite lookup_insert_ne, !lookup_insert_eq by done.
  all: repeat split; try done.
  all: intros ev Hev Hname Hargs; events_in Hev.
  all: cbn in Hargs; unfold backup_call in Hargs; cbn in Hargs.
  all: rewrite lookup_insert_ne, lookup_insert_eq in Hargs by done.
  all: injection Hargs as Hargs; by apply backup_path_ne in Hargs.
Qed.


(** No run issues a removal. *)
Lemma run_never_removes (a : task_args) (w : W) :
  Forall (fun ev => is_removal (ev_call ev) = false) (trace (run h a w)).
Proof.
  destruct (arg_src a) as [source0|] eqn:Hsrc;
    [|by unfold run; rewrite Hsrc].
  destruct (arg_dest a) as [dest|] eqn:Hdest;
    [|by unfold run; rewrite Hsrc, Hdest].
  run_paths a st.
  all: repeat constructor.
Qed.

Lemma removal_guarded_without_removal validating dest cleared
    (tr : list (event W)) :
  Forall (fun ev => is_removal (ev_call ev) = false) tr ->
  removal_guarded validating dest cleared tr = true.
Proof.
  intros Hall. revert cleared.
  induction Hall as [|ev tr Hev _ IH]; intros cleared; [done|].
  cbn [removal_guarded]. rewrite Hev. apply IH.
Qed.

(** C2. In the operations of a run no removal comes before the event that
    clears it (a validation command returning zero, or the copy onto the
    destination when no validation command was given). The monitor
    accepts every trace of [run]; in fact no removal is issued at all. *)
Theorem C2_no_removal_before_validation (a : task_args) (w : W) :
  let st := run h a w in
  removal_guarded (truthy_str (arg_validate a)) (default "" (arg_dest a))
    false (trace st) = true /\
  Forall (fun ev => is_removal (ev_call ev) = false) (trace st).
Proof.
  intros st. split; [|apply run_never_removes].
  apply removal_guarded_without_removal, run_never_removes.
Qed.

(** C8. Backup requested and the status check finds no destination: no
    backup copy is issued, no backup file is recorded in the result, and
    the operation right after the status check is the copy of the source
    onto the destination. The absence is no error: the run ends as
    deployed, with [failed] as the base class left it, unless the copy
    or the validation command reports failure or raises, and then the
    message names that cause. *)
Theorem C8_absent_destination_no_backup (a : task_args) (w : W)
    (source0 dest : string) (sr : reply) :
  arg_src a = Some source0 ->
  arg_dest a = Some dest ->
  default true (arg_backup a) = true ->
  let st := run h a w in
  replied st (stat_call dest) sr ->
  dest_exists sr = false ->
  Forall (fun ev => bool_decide (ev_call ev = backup_call dest) = false)
         (trace st) /\
  result st !! "backup_file" = base_run h !! "backup_file" /\
  exists source,
    find_needle h "files" source0 = Returns source /\
    take 2 (calls st) = [stat_call dest; copy_call a source dest] /\
    ((result st !! "failed" = base_run h !! "failed" /\
      result st !! "msg" =
        Some (PyStr ("Successfully deployed " +:+ source +:+ " to " +:+ dest)))
     \/
     (exists cr, replied st (copy_call a source dest) cr /\
        truthy_bool (r_failed cr) = true /\
        result st !! "failed" = Some (PyBool true) /\
        result st !! "msg" = Some (PyStr ("Copy failed: " +:+ fmt (r_msg cr))))
     \/
     (exists template vr,
        arg_validate a = Some template /\
        replied st (command_call (str_replace "%s" dest template)) vr /\
        rc_nonzero vr = true /\
        result st !! "failed" = Some (PyBool true) /\
        result st !! "msg" =
          Some (PyStr ("Validation failed: " +:+
                       default "Unknown error" (r_stderr vr))))
     \/
     (exists ev e, last (trace st) = Some ev /\
        ev_outcome ev = Raises e /\
        module_name (ev_call ev) <> "stat" /\
        result st !! "failed" = Some (PyBool true) /\
        result st !! "msg" = Some (PyStr (reported e)))).
Proof.
  intros Hsrc Hdest Hbackup st [w1 Hstat] Hexists. subst st.
  run_paths a st; simplify_eq.
  all: events_in Hstat; try congruence.
  all: split;
    [repeat constructor; apply bool_decide_eq_false_2; cbn [ev_call];
     intros Hc; call_absurd|].
  all: split; [by rewrite ?lookup_insert_ne by done|].
  all: exists source; split; [done|]; split; [done|].
  all: first
    [ left; split; by simplify_map_eq
    | right; left; eexists; split;
      [eexists; apply list_elem_of_lookup; by exists 1|];
      split; [eassumption|]; split; by simplify_map_eq
    | right; right; left; do 2 eexists; split; [reflexivity|]; split;
      [eexists; apply list_elem_of_lookup; by exists 2|];
      split; [eassumption|]; split; by simplify_map_eq
    | right; right; right; do 2 eexists; split; [reflexivity|];
      split; [reflexivity|]; split; [cbn; discriminate|];
      split; by simplify_map_eq ].
Qed.


Ltac events_at i H :=
  repeat (destruct i as [|i]; cbn [lookup list_lookup] in H; simplify_eq).

(** C7. The command a run executes is the validation template with
    every occurrence of the token replaced by the destination path: the
    template is its token-free pieces joined by the token, and the
    [command] module is given, as [_raw_params] and nothing else, the
    same pieces joined by the path. It comes after the copy of the source
    onto the destination returned without failure, and it is executed
    whenever a template that is not empty was given and that copy
    returned without failure. *)
Theorem C7_validation_command (a : task_args) (w : W)
    (source0 dest template : string) :
  arg_src a = Some source0 ->
  arg_dest a = Some dest ->
  arg_validate a = Some template ->
  let st := run h a w in
  let command := String.concat dest (pieces template) in
  (template = String.concat "%s" (pieces template) /\
   Forall (fun p => ~ occurs "%s" p) (pieces template)) /\
  (forall i ev,
     trace st !! i = Some ev ->
     module_name (ev_call ev) = "command" ->
     module_args (ev_call ev) = {[ "_raw_params" := PyStr command ]} /\
     exists source j evc r,
       j < i /\
       find_needle h "files" source0 = Returns source /\
       trace st !! j = Some evc /\
       module_name (ev_call evc) = "copy" /\
       module_args (ev_call evc) !! "src" = Some (PyStr source) /\
       module_args (ev_call evc) !! "dest" = Some (PyStr dest) /\
       module_args (ev_call evc) !! "remote_src" = None /\
       ev_outcome evc = Returns r /\
       truthy_bool (r_failed r) = false) /\
  (forall source cr,
     template <> "" ->
     find_needle h "files" source0 = Returns source ->
     replied st (copy_call a source dest) cr ->
     truthy_bool (r_failed cr) = false ->
     exists ev,
       ev ∈ trace st /\
       module_name (ev_call ev) = "command" /\
       module_args (ev_call ev) = {[ "_raw_params" := PyStr command ]}).
Proof.
  intros Hsrc Hdest Hval st command. subst st command.
  destruct (substitution_by_pieces dest template) as (Hjoin & Hfree & Hsub).
  rewrite <- Hsub. split; [by split|]. clear Hjoin Hfree Hsub. split.
  - intros i ev. revert i ev.
    run_paths a st; simplify_eq; intros i ev Hi Hname.
    all: events_at i Hi; try discriminate Hname; try done.
    all: split; [reflexivity|].
    all: first
      [ exists source, 2; do 2 eexists; split; [lia|]; split; [done|];
        split; [reflexivity|]; split; [reflexivity|];
        split; [apply copy_args_src|]; split; [apply copy_args_dest|];
        split; [apply copy_args_remote_src|]; split;
        [reflexivity|assumption]
      | exists source, 1; do 2 eexists; split; [lia|]; split; [done|];
        split; [reflexivity|]; split; [reflexivity|];
        split; [apply copy_args_src|]; split; [apply copy_args_dest|];
        split; [apply copy_args_remote_src|]; split;
        [reflexivity|assumption] ].
  - intros source' cr Hne Hfound [wc Hcopy]. revert Hfound Hcopy.
    run_paths a st; simplify_eq; intros Hfound Hcopy Hok.
    all: events_in Hcopy; try congruence.
    all: try (destruct template; [done | discriminate]).
    all: first
      [ solve [eexists; split; [apply list_elem_of_lookup; by exists 2|];
               by split]
      | solve [eexists; split; [apply list_elem_of_lookup; by exists 3|];
               by split] ].
Qed.


(** C1, as amended. The validation command returned a non-zero exit
    code: if a backup was made, the restore copy (backup path onto the
    destination) is issued exactly once, and the result is failed; when
    no remote operation raised, the message is "Validation failed: "
    followed by the captured standard error (or "Unknown error") and
    [validation_output] is the captured standard output. *)
Theorem C1_validation_failure_rolls_back (a : task_args) (w : W)
    (source0 dest template : string) (vr : reply) :
  arg_src a = Some source0 ->
  arg_dest a = Some dest ->
  arg_validate a = Some template ->
  let st := run h a w in
  replied st (command_call (str_replace "%s" dest template)) vr ->
  rc_nonzero vr = true ->
  (forall br, replied st (backup_call dest) br ->
              truthy_bool (r_failed br) = false ->
              times_issued (restore_call (backup_path dest) dest) st = 1) /\
  result st !! "failed" = Some (PyBool true) /\
  (all_returned st ->
   result st !! "msg" =
     Some (PyStr ("Validation failed: " +:+
                  default "Unknown error" (r_stderr vr))) /\
   result st !! "validation_output" =
     Some (PyStr (default "" (r_stdout vr)))).
Proof.
  intros Hsrc Hdest Hval st [wv Hcmd] Hrc. subst st.
  run_paths a st; simplify_eq.
  all: events_in Hcmd; try congruence.
  all: split;
    [intros br [wb Hbak] Hok; events_in Hbak; try congruence; count_calls|].
  all: split; [by simplify_map_eq|].
  all: intros Hall.
  all: first
    [ by simplify_map_eq
    | exfalso; unfold all_returned in Hall; cbn [trace] in Hall;
      rewrite !Forall_cons in Hall; cbn [ev_outcome] in Hall;
      destruct Hall as (_ & _ & _ & _ & [? Hraised] & _);
      discriminate Hraised ].
Qed.





(** ** Further properties of the workflow *)

(** X1. When the copy onto the destination reports failure the run stops
    there: the result is failed with "Copy failed: ...", no checksum is
    reported, and neither a validation command nor a restore follows,
    whether or not a backup was made. *)
Theorem X1_copy_failure_stops (a : task_args) (w : W)
    (source0 dest source : string) (cr : reply) :
  arg_src a = Some source0 ->
  arg_dest a = Some dest ->
  find_needle h "files" source0 = Returns source ->
  let st := run h a w in
  replied st (copy_call a source dest) cr ->
  truthy_bool (r_failed cr) = true ->
  result st !! "failed" = Some (PyBool true) /\
  result st !! "msg" = Some (PyStr ("Copy failed: " +:+ fmt (r_msg cr))) /\
  result st !! "checksum" = base_run h !! "checksum" /\
  (calls st = [stat_call dest; copy_call a source dest] \/
   calls st = [stat_call dest; backup_call dest; copy_call a source dest]).
Proof.
  intros Hsrc Hdest Hfound st [wc Hcopy] Hfailed. subst st.
  revert Hcopy. run_paths a st; simplify_eq; intros Hcopy.
  all: events_in Hcopy; try congruence.
  all: rewrite lookup_insert_ne, !lookup_insert_eq by done.
  all: rewrite ?lookup_insert_ne by done.
  all: auto.
Qed.

(** X2. When the source file is not found or cannot be read, no remote
    operation is issued: the run executes no module. The result is failed
    and carries the exception's text (prefixed for anything but
    [AnsibleActionFail]). *)
Theorem X2_local_failure_no_remote_operation (a : task_args) (w : W)
    (source0 dest : string) (e : exn) :
  arg_src a = Some source0 ->
  arg_dest a = Some dest ->
  find_needle h "files" source0 = Raises e \/
  (exists source, find_needle h "files" source0 = Returns source /\
                  read_file h source = Raises e) ->
  let st := run h a w in
  trace st = [] /\
  result st !! "failed" = Some (PyBool true) /\
  result st !! "msg" = Some (PyStr (reported e)).
Proof.
  intros Hsrc Hdest Hlocal st. subst st.
  revert Hlocal. run_paths a st; simplify_eq; intros Hlocal.
  all: destruct Hlocal as [Hraise | (source' & Hfound & Hread')];
    simplify_eq; try congruence.
  all: rewrite lookup_insert_ne, !lookup_insert_eq by done; auto.
  all: rewrite Hread in Hread'; injection Hread' as ->; auto.
Qed.

(** X3. A remote operation that raises is the last operation of the run,
    and the result is failed with the exception's text. *)
Theorem X3_raised_operation_ends_run (a : task_args) (w : W)
    (ev : event W) (e : exn) :
  let st := run h a w in
  ev ∈ trace st ->
  ev_outcome ev = Raises e ->
  last (trace st) = Some ev /\
  result st !! "failed" = Some (PyBool true) /\
  result st !! "msg" = Some (PyStr (reported e)).
Proof.
  intros st Hev Hraise. subst st.
  destruct (arg_src a) as [source0|] eqn:Hsrc;
    [|by unfold run in Hev; rewrite Hsrc in Hev; apply elem_of_nil in Hev].
  destruct (arg_dest a) as [dest|] eqn:Hdest;
    [|by unfold run in Hev; rewrite Hsrc, Hdest in Hev;
         apply elem_of_nil in Hev].
  revert Hev. run_paths a st; simplify_eq; intros Hev.
  all: events_in Hev; try discriminate Hraise.
  all: cbn [ev_outcome] in Hraise; simplify_eq.
  all: rewrite lookup_insert_ne, !lookup_insert_eq by done; auto.
Qed.

(** X4. The operations of a run come in a fixed order: status check,
    copy, validation command; or, with a backup, status check, backup
    copy, copy, validation command, restore. Every run is a prefix of one
    of the two. *)
Theorem X4_operations_in_fixed_order (a : task_args) (w : W)
    (source0 dest : string) :
  arg_src a = Some source0 ->
  arg_dest a = Some dest ->
  let st := run h a w in
  let source :=
    match find_needle h "files" source0 with
    | Returns s => s
    | Raises _ => ""
    end in
  let command :=
    command_call (str_replace "%s" dest (default "" (arg_validate a))) in
  calls st `prefix_of`
    [stat_call dest; copy_call a source dest; command] \/
  calls st `prefix_of`
    [stat_call dest; backup_call dest; copy_call a source dest; command;
     restore_call (backup_path dest) dest].
Proof.
  intros Hsrc Hdest st source command. subst st source command.
  run_paths a st; simplify_eq.
  all: unfold calls; cbn [fmap list_fmap ev_call trace default from_option id].
  all: first
    [ left; (by eexists) | right; (by eexists) ].
Qed.

(** X5. With [backup: false] no copy works on remote files: nothing is
    backed up and nothing restored, even when validation fails; the run
    has at most three operations and records no backup file. *)
Theorem X5_no_backup_no_rollback (a : task_args) (w : W)
    (source0 dest : string) :
  arg_src a = Some source0 ->
  arg_dest a = Some dest ->
  arg_backup a = Some false ->
  let st := run h a w in
  Forall (fun c => module_args c !! "remote_src" = None) (calls st) /\
  result st !! "backup_file" = base_run h !! "backup_file" /\
  length (calls st) <= 3.
Proof.
  intros Hsrc Hdest Hbackup st. subst st.
  run_paths a st; simplify_eq.
  all: split; [|split; [by rewrite ?lookup_insert_ne by done|cbn; lia]].
  all: unfold calls; cbn [fmap list_fmap ev_call trace].
  all: repeat constructor; try done.
  all: apply copy_args_remote_src.
Qed.

Lemma occurs_further (tok : string) (c : ascii) (s : string) :
  occurs tok s -> occurs tok (String c s).
Proof. intros (pre & post & ->). by exists (String c pre), post. Qed.

(** X6. A validation template without the token is executed as it is. *)
Theorem X6_template_without_token_unchanged (dest template : string) :
  ~ occurs "%s" template ->
  str_replace "%s" dest template = template.
Proof.
  induction template as [|rest IH|c rest Hp IH] using token_ind; intros Hfree.
  - reflexivity.
  - destruct Hfree. by exists "", rest.
  - rewrite str_replace_other by done. f_equal. apply IH.
    intros Hocc. by apply Hfree, occurs_further.
Qed.

(** X7. Every run ends in one of two ways: the result is failed, or the
    run did not touch [failed] and reports the deployment: the copy onto
    the destination returned without failure, and the result carries the
    success message, the destination and the copy's [changed]. *)
Theorem X7_failed_or_deployed (a : task_args) (w : W) :
  let st := run h a w in
  result st !! "failed" = Some (PyBool true) \/
  (result st !! "failed" = base_run h !! "failed" /\
   exists source0 dest source cr,
     arg_src a = Some source0 /\
     arg_dest a = Some dest /\
     find_needle h "files" source0 = Returns source /\
     replied st (copy_call a source dest) cr /\
     truthy_bool (r_failed cr) = false /\
     result st !! "msg" =
       Some (PyStr ("Successfully deployed " +:+ source +:+ " to " +:+ dest)) /\
     result st !! "dest" = Some (PyStr dest) /\
     result st !! "changed" = Some (PyBool (default false (r_changed cr)))).
Proof.
  intros st. subst st.
  destruct (arg_src a) as [source0|] eqn:Hsrc;
    [|by left; unfold run, failed_with; rewrite Hsrc; simplify_map_eq].
  destruct (arg_dest a) as [dest|] eqn:Hdest;
    [|by left; unfold run, failed_with; rewrite Hsrc, Hdest; simplify_map_eq].
  run_paths a st; simplify_eq.
  all: try (left; by simplify_map_eq).
  all: right; split; [by simplify_map_eq|].
  all: exists source0, dest, source.
  all: match goal with
       | Hx : execute_module h _ (copy_call _ _ _) = (Returns ?r, ?w') |- _ =>
           exists r; do 3 (split; [done|]);
           split; [unfold replied; cbn [trace]; exists w';
                   rewrite !elem_of_cons; auto 6|]
       end.
  all: split; [done|]. 
  all: by simplify_map_eq.
Qed.

(** X9. Without a validation command, or with an empty one, no command
    is executed and the result gets neither [validation] nor
    [validation_output]. *)
Theorem X9_no_validation_without_command (a : task_args) (w : W) :
  truthy_str (arg_validate a) = false ->
  let st := run h a w in
  Forall (fun c => module_name c <> "command") (calls st) /\
  result st !! "validation" = base_run h !! "validation" /\
  result st !! "validation_output" = base_run h !! "validation_output".
Proof.
  intros Hvalidate st. subst st.
  destruct (arg_src a) as [source0|] eqn:Hsrc;
    [|by unfold run, failed_with; rewrite Hsrc; cbn; simplify_map_eq].
  destruct (arg_dest a) as [dest|] eqn:Hdest;
    [|by unfold run, failed_with; rewrite Hsrc, Hdest; cbn; simplify_map_eq].
  revert Hvalidate. run_paths a st; simplify_eq; intros Hvalidate.
  all: try congruence.
  all: split; [unfold calls; cbn [fmap list_fmap ev_call trace];
               repeat constructor; done|].
  all: by rewrite ?lookup_insert_ne by done.
Qed.

Lemma remote_copy_args (src dst : string) :
  let args := module_args (restore_call src dst) in
  args !! "src" = Some (PyStr src) /\
  args !! "dest" = Some (PyStr dst) /\
  args !! "remote_src" = Some (PyBool true).
Proof. cbn. by simplify_map_eq. Qed.

(** X10. Roll-back works on a host whose modules behave: when the backup
    copy and the restore copy both return without failure, the
    destination holds after the run the bytes it held before, and the
    result is failed. *)
Theorem X10_rollback_restores_destination (a : task_args) (w : W)
    (remote_bytes : W -> string -> option (list Byte.byte))
    (dest : string) (br rr : reply) :
  stat_reads_only h remote_bytes ->
  copy_duplicates_remote h remote_bytes ->
  copy_writes_destination_only h remote_bytes ->
  command_reads_only h remote_bytes ->
  arg_dest a = Some dest ->
  let st := run h a w in
  replied st (backup_call dest) br ->
  truthy_bool (r_failed br) = false ->
  replied st (restore_call (backup_path dest) dest) rr ->
  truthy_bool (r_failed rr) = false ->
  remote_bytes (world st) dest = remote_bytes w dest /\
  result st !! "failed" = Some (PyBool true).
Proof.
  intros Hstat Hdup Honly Hcmd Hdest st [wb Hbak] Hbok [wr Hres] Hrok.
  subst st.
  destruct (arg_src a) as [source0|] eqn:Hsrc;
    [|by unfold run in Hbak; rewrite Hsrc in Hbak; apply elem_of_nil in Hbak].
  revert Hbak Hres. run_paths a st; simplify_eq; intros Hbak Hres.
  all: events_in Hres; try congruence.
  all: events_in Hbak; try congruence.
  all: split; [|by simplify_map_eq].
  all: repeat match goal with
       | Hx : execute_module h ?w0 (stat_call _) = (_, ?w1) |- _ =>
           pose proof (fun p => Hstat _ _ _ _ p Hx eq_refl); clear Hx
       | Hx : execute_module h ?w0 (command_call _) = (_, ?w1) |- _ =>
           pose proof (fun p => Hcmd _ _ _ _ p Hx eq_refl); clear Hx
       end.
  all: match goal with
       | Hx : execute_module h _ (restore_call _ _) = _ |- _ =>
           rewrite (Hdup _ _ _ _ _ _ Hx eq_refl
                      (proj1 (remote_copy_args _ _))
                      (proj1 (proj2 (remote_copy_args _ _)))
                      (proj2 (proj2 (remote_copy_args _ _))) Hrok)
       end.
  all: match goal with
       | Hc : forall p, ?rb _ p = ?rb _ p |- _ = _ =>
           rewrite Hc; clear Hc
       end.
  all: match goal with
       | Hx : execute_module h _ (copy_call _ _ _) = _ |- _ =>
           rewrite (Honly _ _ _ _ dest (backup_path dest) Hx eq_refl
                      (copy_args_dest _ _ _) (backup_path_ne dest))
       end.
  all: match goal with
       | Hx : execute_module h _ (backup_call _) = _ |- _ =>
           rewrite (Hdup _ _ _ _ _ _ Hx eq_refl
                      (proj1 (remote_copy_args dest (backup_path dest)))
                      (proj1 (proj2 (remote_copy_args dest (backup_path dest))))
                      (proj2 (proj2 (remote_copy_args dest (backup_path dest))))
                      Hbok)
       end.
  all: auto.
Qed.

(** X11. On a host whose modules behave, a run that made a backup and
    did not fail leaves the destination's former bytes at the backup path
    and reports that path as [backup_file]. *)
Theorem X11_backup_kept_after_success (a : task_args) (w : W)
    (remote_bytes : W -> string -> option (list Byte.byte))
    (dest : string) (br : reply) :
  stat_reads_only h remote_bytes ->
  copy_duplicates_remote h remote_bytes ->
  copy_writes_destination_only h remote_bytes ->
  command_reads_only h remote_bytes ->
  base_run h !! "failed" = None ->
  arg_dest a = Some dest ->
  let st := run h a w in
  replied st (backup_call dest) br ->
  truthy_bool (r_failed br) = false ->
  result st !! "failed" = None ->
  remote_bytes (world st) (backup_path dest) = remote_bytes w dest /\
  result st !! "backup_file" = Some (PyStr (backup_path dest)).
Proof.
  intros Hstat Hdup Honly Hcmd Hbase Hdest st [wb Hbak] Hbok Hok.
  subst st.
  destruct (arg_src a) as [source0|] eqn:Hsrc;
    [|by unfold run in Hbak; rewrite Hsrc in Hbak; apply elem_of_nil in Hbak].
  revert Hbak Hok. run_paths a st; simplify_eq; intros Hbak Hok.
  all: try (by simplify_map_eq).
  all: events_in Hbak; try congruence.
  all: split; [|by simplify_map_eq].
  all: repeat match goal with
       | Hx : execute_module h ?w0 (stat_call _) = (_, ?w1) |- _ =>
           pose proof (fun p => Hstat _ _ _ _ p Hx eq_refl); clear Hx
       | Hx : execute_module h ?w0 (command_call _) = (_, ?w1) |- _ =>
           pose proof (fun p => Hcmd _ _ _ _ p Hx eq_refl); clear Hx
       end.
  all: repeat match goal with
       | Hc : forall p, ?rb ?w3 p = ?rb _ p
         |- ?rb ?w3 _ = _ => rewrite Hc; clear Hc
       end.
  all: match goal with
       | Hx : execute_module h _ (copy_call _ _ _) = _ |- _ =>
           rewrite (Honly _ _ _ _ dest (backup_path dest) Hx eq_refl
                      (copy_args_dest _ _ _) (backup_path_ne dest))
       end.
  all: match goal with
       | Hx : execute_module h _ (backup_call _) = _ |- _ =>
           rewrite (Hdup _ _ _ _ _ _ Hx eq_refl
                      (proj1 (remote_copy_args dest (backup_path dest)))
                      (proj1 (proj2 (remote_copy_args dest (backup_path dest))))
                      (proj2 (proj2 (remote_copy_args dest (backup_path dest))))
                      Hbok)
       end.
  all: auto.
Qed.

End Facts.

(** ** The workflow on concrete hosts *)

Section Scenarios.
Import Hosts.


Lemma C4_witness :
  let a := TaskArgs None (Some "/etc/motd") None None None None None in
  (arg_src a = None \/ arg_dest a = None) /\
  result (run found a []) !! "failed" = Some (PyBool true) /\
  trace (run found a []) = [].
Proof.
  pose proof (C4_missing_argument found
    (TaskArgs None (Some "/etc/motd") None None None None None) []
    (or_introl eq_refl)) as (Hfailed & _ & Htrace).
  cbv zeta. auto.
Defined.

Ltac event_at n := apply list_elem_of_lookup; exists n; vm_compute; reflexivity.

Lemma C3_witness :
  let w := [Returns (stat_exists true); Returns (module_failed "disk full")] in
  dest_exists (stat_exists true) = true /\
  truthy_bool (r_failed (module_failed "disk full")) = true /\
  result (run found nginx_args w) !! "msg" =
    Some (PyStr "Backup failed: disk full") /\
  calls (run found nginx_args w) =
    [stat_call "/etc/nginx/nginx.conf"; backup_call "/etc/nginx/nginx.conf"].
Proof.
  cbv zeta. do 2 (split; [reflexivity|]).
  set (w := [Returns (stat_exists true); Returns (module_failed "disk full")]).
  assert (Hstat : replied (run found nginx_args w)
                    (stat_call "/etc/nginx/nginx.conf") (stat_exists true))
    by (exists [Returns (module_failed "disk full")]; event_at 0).
  assert (Hbak : replied (run found nginx_args w)
                   (backup_call "/etc/nginx/nginx.conf")
                   (module_failed "disk full"))
    by (exists []; event_at 1).
  destruct (C3_backup_failure_aborts found nginx_args w "nginx.conf"
              "/etc/nginx/nginx.conf" _ _ eq_refl eq_refl eq_refl Hstat
              eq_refl Hbak eq_refl) as (_ & Hmsg & _ & Hcalls).
  split; [exact Hmsg | exact Hcalls].
Defined.

Lemma C8_witness :
  let w := [Returns (stat_exists false); Returns (module_ok true);
            Returns (command_result 0 "ok" "")] in
  dest_exists (stat_exists false) = false /\
  result (run found nginx_args w) !! "backup_file" = None /\
  take 2 (calls (run found nginx_args w)) =
    [stat_call "/etc/nginx/nginx.conf";
     copy_call nginx_args "/files/nginx.conf" "/etc/nginx/nginx.conf"].
Proof.
  cbv zeta. split; [reflexivity|].
  set (w := [Returns (stat_exists false); Returns (module_ok true);
             Returns (command_result 0 "ok" "")]).
  assert (Hstat : replied (run found nginx_args w)
                    (stat_call "/etc/nginx/nginx.conf") (stat_exists false))
    by (eexists; event_at 0).
  destruct (C8_absent_destination_no_backup found nginx_args w "nginx.conf"
              "/etc/nginx/nginx.conf" _ eq_refl eq_refl eq_refl Hstat eq_refl)
    as (_ & Hfile & source & Hfound & Hcalls & _).
  injection Hfound as <-. split; [exact Hfile | exact Hcalls].
Defined.

Lemma C7_witness :
  let w := [Returns (stat_exists true); Returns (module_ok true);
            Returns (module_ok true); Returns (command_result 0 "ok" "")] in
  exists ev,
    trace (run found nginx_args w) !! 3 = Some ev /\
    module_name (ev_call ev) = "command" /\
    module_args (ev_call ev) =
      {[ "_raw_params" := PyStr "nginx -t -c /etc/nginx/nginx.conf" ]}.
Proof.
  cbv zeta.
  set (w := [Returns (stat_exists true); Returns (module_ok true);
             Returns (module_ok true); Returns (command_result 0 "ok" "")]).
  set (ev := Event (command_call "nginx -t -c /etc/nginx/nginx.conf")
                   (Returns (command_result 0 "ok" ""))
                   ([] : list (outcome reply))).
  assert (Hi : trace (run found nginx_args w) !! 3 = Some ev)
    by (vm_compute; reflexivity).
  destruct (C7_validation_command found nginx_args w "nginx.conf"
              "/etc/nginx/nginx.conf" "nginx -t -c %s"
              eq_refl eq_refl eq_refl) as (_ & Hcmd & _).
  destruct (Hcmd 3 ev Hi eq_refl) as [Hargs _].
  exists ev. split; [exact Hi|]. split; [reflexivity | exact Hargs].
Defined.

Lemma C1_witness :
  let w := [Returns (stat_exists true); Returns (module_ok true);
            Returns (module_ok true);
            Returns (command_result 1 "out" "syntax error");
            Returns (module_failed "restore refused")] in
  rc_nonzero (command_result 1 "out" "syntax error") = true /\
  all_returned (run found nginx_args w) /\
  times_issued (restore_call (backup_path "/etc/nginx/nginx.conf")
                             "/etc/nginx/nginx.conf")
               (run found nginx_args w) = 1 /\
  result (run found nginx_args w) !! "failed" = Some (PyBool true) /\
  result (run found nginx_args w) !! "msg" =
    Some (PyStr "Validation failed: syntax error") /\
  result (run found nginx_args w) !! "validation_output" = Some (PyStr "out").
Proof.
  cbv zeta. split; [reflexivity|].
  set (w := [Returns (stat_exists true); Returns (module_ok true);
             Returns (module_ok true);
             Returns (command_result 1 "out" "syntax error");
             Returns (module_failed "restore refused")]).
  assert (Hcmd : replied (run found nginx_args w)
                   (command_call (str_replace "%s" "/etc/nginx/nginx.conf"
                                              "nginx -t -c %s"))
                   (command_result 1 "out" "syntax error"))
    by (eexists; event_at 3).
  assert (Hbak : replied (run found nginx_args w)
                   (backup_call "/etc/nginx/nginx.conf") (module_ok true))
    by (eexists; event_at 1).
  assert (Hall : all_returned (run found nginx_args w)).
  { unfold all_returned.
    apply Forall_forall. intros ev Hev.
    apply list_elem_of_lookup in Hev as [i Hev].
    do 5 (destruct i as [|i];
          [vm_compute in Hev; injection Hev as <-; eexists; reflexivity|]).
    vm_compute in Hev. discriminate Hev. }
  destruct (C1_validation_failure_rolls_back found nginx_args w "nginx.conf"
              "/etc/nginx/nginx.conf" "nginx -t -c %s" _
              eq_refl eq_refl eq_refl Hcmd eq_refl)
    as (Hrestore & Hfailed & Hrest).
  destruct (Hrest Hall) as [Hmsg Hout].
  split; [exact Hall|]. split; [exact (Hrestore _ Hbak eq_refl)|].
  split; [exact Hfailed|]. split; [exact Hmsg | exact Hout].
Defined.

(** The monitor of removals tells traces apart: a removal right after the
    status check is refused, one after a passed validation accepted. *)
Example monitor_refuses_early_removal :
  removal_guarded true "/etc/motd" false
    [Event (stat_call "/etc/motd") (Returns (stat_exists true)) tt;
     Event (remove_call "/etc/motd.backup") (Returns (module_ok true)) tt]
  = false.
Proof. reflexivity. Qed.

Example monitor_accepts_late_removal :
  removal_guarded true "/etc/motd" false
    [Event (command_call "true") (Returns (command_result 0 "" "")) tt;
     Event (remove_call "/etc/motd.backup") (Returns (module_ok true)) tt]
  = true.
Proof. reflexivity. Qed.

Example replace_every_token :
  str_replace "%s" "/etc/motd" "diff %s %s.new; echo 100%" =
  "diff /etc/motd /etc/motd.new; echo 100%".
Proof. reflexivity. Qed.

Example replace_leftmost_first : str_replace "aa" "X" "aaaaa" = "XXa".
Proof. reflexivity. Qed.

(** C1, the claim as stated fails: the validation command returns exit
    code 1 with output and error text, the restore copy raises, and the
    result carries the catch-all message and no [validation_output]. *)
Lemma C1_counterexample_restore_raises :
  let w := [Returns (stat_exists true); Returns (module_ok true);
            Returns (module_ok true);
            Returns (command_result 1 "out" "syntax error");
            Raises (OtherException "connection lost")] in
  let st := run found nginx_args w in
  trace st !! 3 =
    Some (Event (command_call "nginx -t -c /etc/nginx/nginx.conf")
                (Returns (command_result 1 "out" "syntax error"))
                [Raises (OtherException "connection lost")]) /\
  rc_nonzero (command_result 1 "out" "syntax error") = true /\
  result st !! "failed" = Some (PyBool true) /\
  result st !! "msg" = Some (PyStr "Unexpected error: connection lost") /\
  result st !! "validation_output" = None.
Proof. cbv zeta. repeat split; vm_compute; reflexivity. Qed.



Lemma simulated_command_reads_only local exit_code :
  command_reads_only (simulated local exit_code) read_remote.
Proof.
  intros fs fs' c o p Hexec Hname.
  cbn [simulated execute_module] in Hexec. rewrite Hname in Hexec.
  cbn [String.eqb Ascii.eqb Bool.eqb] in Hexec. by simplify_eq.
Qed.




(** ** Further properties, on concrete hosts *)

Lemma X1_witness :
  let w := [Returns (stat_exists true); Returns (module_ok true);
            Returns (module_failed "No space left on device")] in
  truthy_bool (r_failed (module_failed "No space left on device")) = true /\
  result (run found nginx_args w) !! "msg" =
    Some (PyStr "Copy failed: No space left on device") /\
  calls (run found nginx_args w) =
    [stat_call "/etc/nginx/nginx.conf"; backup_call "/etc/nginx/nginx.conf";
     copy_call nginx_args "/files/nginx.conf" "/etc/nginx/nginx.conf"].
Proof.
  cbv zeta. split; [reflexivity|].
  set (w := [Returns (stat_exists true); Returns (module_ok true);
             Returns (module_failed "No space left on device")]).
  assert (Hcopy : replied (run found nginx_args w)
                    (copy_call nginx_args "/files/nginx.conf"
                               "/etc/nginx/nginx.conf")
                    (module_failed "No space left on device"))
    by (eexists; event_at 2).
  destruct (X1_copy_failure_stops found nginx_args w "nginx.conf"
              "/etc/nginx/nginx.conf" "/files/nginx.conf" _
              eq_refl eq_refl eq_refl Hcopy eq_refl)
    as (_ & Hmsg & _ & Hcalls).
  split; [exact Hmsg|].
  destruct Hcalls as [Hcalls|Hcalls]; [|exact Hcalls].
  vm_compute in Hcalls. discriminate Hcalls.
Defined.

Lemma X2_witness :
  find_needle missing "files" "nginx.conf" =
    Raises (OtherException "Could not find or access 'nginx.conf'") /\
  trace (run missing nginx_args [Returns (stat_exists true)]) = [] /\
  result (run missing nginx_args [Returns (stat_exists true)]) !! "msg" =
    Some (PyStr "Unexpected error: Could not find or access 'nginx.conf'").
Proof.
  split; [reflexivity|].
  destruct (X2_local_failure_no_remote_operation missing nginx_args
              [Returns (stat_exists true)] "nginx.conf"
              "/etc/nginx/nginx.conf"
              (OtherException "Could not find or access 'nginx.conf'")
              eq_refl eq_refl (or_introl eq_refl))
    as (Htrace & _ & Hmsg).
  split; [exact Htrace | exact Hmsg].
Defined.

Lemma X3_witness :
  let w := [Returns (stat_exists false);
            Raises (AnsibleActionFail "host unreachable")] in
  let ev := Event (copy_call nginx_args "/files/nginx.conf"
                             "/etc/nginx/nginx.conf")
                  (Raises (AnsibleActionFail "host unreachable"))
                  ([] : list (outcome reply)) in
  ev ∈ trace (run found nginx_args w) /\
  last (trace (run found nginx_args w)) = Some ev /\
  result (run found nginx_args w) !! "msg" = Some (PyStr "host unreachable").
Proof.
  cbv zeta.
  set (w := [Returns (stat_exists false);
             Raises (AnsibleActionFail "host unreachable")]).
  set (ev := Event (copy_call nginx_args "/files/nginx.conf"
                              "/etc/nginx/nginx.conf")
                   (Raises (AnsibleActionFail "host unreachable"))
                   ([] : list (outcome reply))).
  assert (Hev : ev ∈ trace (run found nginx_args w)) by event_at 1.
  destruct (X3_raised_operation_ends_run found nginx_args w ev
              (AnsibleActionFail "host unreachable") Hev eq_refl)
    as (Hlast & _ & Hmsg).
  split; [exact Hev|]. split; [exact Hlast | exact Hmsg].
Defined.

Lemma X4_witness :
  let w := [Returns (stat_exists true); Returns (module_ok true);
            Returns (module_ok true); Returns (command_result 0 "ok" "")] in
  calls (run found nginx_args w) =
    [stat_call "/etc/nginx/nginx.conf"; backup_call "/etc/nginx/nginx.conf";
     copy_call nginx_args "/files/nginx.conf" "/etc/nginx/nginx.conf";
     command_call "nginx -t -c /etc/nginx/nginx.conf"] /\
  calls (run found nginx_args w) `prefix_of`
    [stat_call "/etc/nginx/nginx.conf"; backup_call "/etc/nginx/nginx.conf";
     copy_call nginx_args "/files/nginx.conf" "/etc/nginx/nginx.conf";
     command_call "nginx -t -c /etc/nginx/nginx.conf";
     restore_call (backup_path "/etc/nginx/nginx.conf") "/etc/nginx/nginx.conf"].
Proof.
  cbv zeta.
  set (w := [Returns (stat_exists true); Returns (module_ok true);
             Returns (module_ok true); Returns (command_result 0 "ok" "")]).
  assert (Hcalls : calls (run found nginx_args w) =
    [stat_call "/etc/nginx/nginx.conf"; backup_call "/etc/nginx/nginx.conf";
     copy_call nginx_args "/files/nginx.conf" "/etc/nginx/nginx.conf";
     command_call "nginx -t -c /etc/nginx/nginx.conf"])
    by (vm_compute; reflexivity).
  split; [exact Hcalls|].
  destruct (X4_operations_in_fixed_order found nginx_args w "nginx.conf"
              "/etc/nginx/nginx.conf" eq_refl eq_refl) as [Hshort|Hlong].
  - destruct Hshort as [k Hk]. rewrite Hcalls in Hk.
    vm_compute in Hk. discriminate Hk.
  - exact Hlong.
Defined.

Lemma X5_witness :
  let w := [Returns (stat_exists true); Returns (module_ok true);
            Returns (command_result 1 "" "syntax error")] in
  arg_backup nginx_args_no_backup = Some false /\
  length (calls (run found nginx_args_no_backup w)) <= 3 /\
  Forall (fun c => module_args c !! "remote_src" = None)
         (calls (run found nginx_args_no_backup w)).
Proof.
  cbv zeta. split; [reflexivity|].
  destruct (X5_no_backup_no_rollback found nginx_args_no_backup
              [Returns (stat_exists true); Returns (module_ok true);
               Returns (command_result 1 "" "syntax error")]
              "nginx.conf" "/etc/nginx/nginx.conf" eq_refl eq_refl eq_refl)
    as (Hremote & _ & Hlen).
  split; [exact Hlen | exact Hremote].
Defined.

Lemma X6_witness :
  ~ occurs "%s" "nginx -t" /\
  str_replace "%s" "/etc/nginx/nginx.conf" "nginx -t" = "nginx -t".
Proof.
  assert (Hfree : ~ occurs "%s" "nginx -t").
  { pose proof (pieces_token_free "nginx -t") as H.
    change (pieces "nginx -t") with ["nginx -t"] in H.
    by apply Forall_inv in H. }
  split; [exact Hfree|].
  exact (X6_template_without_token_unchanged "/etc/nginx/nginx.conf"
           "nginx -t" Hfree).
Defined.

Lemma X9_witness :
  let w := [Returns (stat_exists false); Returns (module_ok true)] in
  truthy_str (arg_validate motd_args) = false /\
  Forall (fun c => module_name c <> "command")
         (calls (run found motd_args w)) /\
  result (run found motd_args w) !! "validation" = None.
Proof.
  cbv zeta. split; [reflexivity|].
  destruct (X9_no_validation_without_command found motd_args
              [Returns (stat_exists false); Returns (module_ok true)] eq_refl)
    as (Hcalls & Hvalidation & _).
  split; [exact Hcalls | exact Hvalidation].
Defined.

(** The [n]-th event of a run shows that its call was replied to. *)
Ltac replied_at n :=
  lazymatch goal with
  | |- replied ?st _ _ =>
      exists (default (world st) (ev_after <$> trace st !! n));
      apply list_elem_of_lookup; exists n; vm_compute; reflexivity
  end.

Lemma simulated_stat_reads_only local exit_code :
  stat_reads_only (simulated local exit_code) read_remote.
Proof.
  intros fs fs' c o p Hexec Hname.
  cbn [simulated execute_module] in Hexec. rewrite Hname in Hexec.
  cbn [String.eqb Ascii.eqb Bool.eqb] in Hexec. by simplify_eq.
Qed.

Lemma simulated_copy_duplicates_remote local exit_code :
  copy_duplicates_remote (simulated local exit_code) read_remote.
Proof.
  intros fs fs' c r src dst Hexec Hname Hsrc Hdst Hremote Hok.
  cbn [simulated execute_module] in Hexec.
  rewrite Hname, Hremote in Hexec. cbn [String.eqb Ascii.eqb Bool.eqb] in Hexec.
  unfold text_arg in Hexec. rewrite Hsrc, Hdst in Hexec. unfold read_remote.
  destruct (fs !! src) as [data|] eqn:Hdata; simplify_eq; try done.
  by rewrite lookup_insert_eq.
Qed.

Lemma simulated_copy_writes_destination_only local exit_code :
  copy_writes_destination_only (simulated local exit_code) read_remote.
Proof.
  intros fs fs' c o dst p Hexec Hname Hdst Hne.
  cbn [simulated execute_module] in Hexec.
  rewrite Hname in Hexec. cbn [String.eqb Ascii.eqb Bool.eqb] in Hexec.
  unfold text_arg in Hexec. rewrite Hdst in Hexec. unfold read_remote.
  repeat match goal with
         | H : context [match ?x with _ => _ end] |- _ => destruct x
         end; simplify_eq; try done.
  all: by rewrite lookup_insert_ne.
Qed.

Lemma X10_witness :
  let h := simulated nginx_local (fun _ => 1%Z) in
  let st := run h nginx_args nginx_remote in
  calls st =
    [stat_call "/etc/nginx/nginx.conf"; backup_call "/etc/nginx/nginx.conf";
     copy_call nginx_args "/files/nginx.conf" "/etc/nginx/nginx.conf";
     command_call "nginx -t -c /etc/nginx/nginx.conf";
     restore_call (backup_path "/etc/nginx/nginx.conf") "/etc/nginx/nginx.conf"] /\
  read_remote (world st) "/etc/nginx/nginx.conf" =
    Some [Byte.x6f; Byte.x6c; Byte.x64] /\
  result st !! "failed" = Some (PyBool true).
Proof.
  cbv zeta. set (h := simulated nginx_local (fun _ => 1%Z)).
  split; [vm_compute; reflexivity|].
  assert (Hbak : replied (run h nginx_args nginx_remote)
                   (backup_call "/etc/nginx/nginx.conf") (module_ok true))
    by replied_at 1.
  assert (Hres : replied (run h nginx_args nginx_remote)
                   (restore_call (backup_path "/etc/nginx/nginx.conf")
                                 "/etc/nginx/nginx.conf") (module_ok true))
    by replied_at 4.
  destruct (X10_rollback_restores_destination h nginx_args nginx_remote
              read_remote "/etc/nginx/nginx.conf" _ _
              (simulated_stat_reads_only _ _)
              (simulated_copy_duplicates_remote _ _)
              (simulated_copy_writes_destination_only _ _)
              (simulated_command_reads_only _ _)
              eq_refl Hbak eq_refl Hres eq_refl) as [Hsame Hfailed].
  split; [|exact Hfailed].
  etransitivity; [exact Hsame | vm_compute; reflexivity].
Defined.

Lemma X11_witness :
  let h := simulated nginx_local (fun _ => 0%Z) in
  let st := run h nginx_args nginx_remote in
  result st !! "failed" = None /\
  read_remote (world st) "/etc/nginx/nginx.conf.backup" =
    Some [Byte.x6f; Byte.x6c; Byte.x64] /\
  result st !! "backup_file" = Some (PyStr "/etc/nginx/nginx.conf.backup").
Proof.
  cbv zeta. set (h := simulated nginx_local (fun _ => 0%Z)).
  assert (Hok : result (run h nginx_args nginx_remote) !! "failed" = None)
    by (vm_compute; reflexivity).
  split; [exact Hok|].
  assert (Hbak : replied (run h nginx_args nginx_remote)
                   (backup_call "/etc/nginx/nginx.conf") (module_ok true))
    by replied_at 1.
  destruct (X11_backup_kept_after_success h nginx_args nginx_remote
              read_remote "/etc/nginx/nginx.conf" _
              (simulated_stat_reads_only _ _)
              (simulated_copy_duplicates_remote _ _)
              (simulated_copy_writes_destination_only _ _)
              (simulated_command_reads_only _ _)
              eq_refl eq_refl Hbak eq_refl Hok) as [Hkept Hfile].
  split; [|exact Hfile].
  etransitivity; [exact Hkept | vm_compute; reflexivity].
Defined.

End Scenarios.
End DeployFacts.

(** * Properties of the filters *)

Module FilterFacts.
Import Filters.


Lemma octal_digit_enumerated (c : ascii) :
  is_octal_digit c = true -> In c octal_chars.
Proof.
  destruct c as [[] [] [] [] [] [] [] []]; cbn; intros H;
    try discriminate H; tauto.
Qed.

Lemma round_trips_spec (s : string) :
  round_trips s = true ->
  exists sym, octal_to_symbolic s = Value sym /\
              String.length sym = 9 /\
              symbolic_to_octal sym = Value s.
Proof.
  unfold round_trips. destruct (octal_to_symbolic s) as [sym| |]; [|done|done].
  intros [Hlen Hback]%andb_prop. exists sym. split; [done|].
  split; [by apply Nat.eqb_eq|].
  destruct (symbolic_to_octal sym) as [s'| |]; [|done|done].
  by apply String.eqb_eq in Hback as ->.
Qed.

Lemma one_digit : forallb (fun c1 => guarded (String c1 "")) octal_chars = true.
Proof. vm_compute. reflexivity. Qed.

Lemma two_digits :
  forallb (fun c1 => forallb (fun c2 =>
    guarded (String c1 (String c2 ""))) octal_chars) octal_chars = true.
Proof. vm_compute. reflexivity. Qed.

Lemma three_digits :
  forallb (fun c1 => forallb (fun c2 => forallb (fun c3 =>
    guarded (String c1 (String c2 (String c3 ""))))
    octal_chars) octal_chars) octal_chars = true.
Proof. vm_compute. reflexivity. Qed.

(** C9. For a string of one to three octal digits that does not start
    with [0], [octal_to_symbolic] yields nine characters and
    [symbolic_to_octal] takes them back to the string. *)
Theorem C9_octal_round_trip (s : string) :
  octal_mode s = true ->
  exists sym, octal_to_symbolic s = Value sym /\
              String.length sym = 9 /\
              symbolic_to_octal sym = Value s.
Proof.
  intros Hmode. apply round_trips_spec.
  assert (Hg : guarded s = true); [|by unfold guarded in Hg; rewrite Hmode in Hg].
  pose proof Hmode as H. unfold octal_mode in H.
  destruct s as [|c1 [|c2 [|c3 [|c4 rest]]]]; try done.
  - apply andb_prop in H as [_ [Hc1 _]%andb_prop].
    apply octal_digit_enumerated in Hc1.
    pose proof one_digit as Hall. rewrite forallb_forall in Hall. by apply Hall.
  - apply andb_prop in H as [_ [Hc1 [Hc2 _]%andb_prop]%andb_prop].
    apply octal_digit_enumerated in Hc1, Hc2.
    pose proof two_digits as Hall. rewrite forallb_forall in Hall.
    specialize (Hall c1 Hc1). rewrite forallb_forall in Hall. by apply Hall.
  - apply andb_prop in H as [_ [Hc1 [Hc2 [Hc3 _]%andb_prop]%andb_prop]%andb_prop].
    apply octal_digit_enumerated in Hc1, Hc2, Hc3.
    pose proof three_digits as Hall. rewrite forallb_forall in Hall.
    specialize (Hall c1 Hc1). rewrite forallb_forall in Hall.
    specialize (Hall c2 Hc2). rewrite forallb_forall in Hall. by apply Hall.
  - apply andb_prop in H as [[_ Hlen]%andb_prop _]. done.
Qed.

Example symbolic_0644 : octal_to_symbolic "0644" = Value "rw-r--r--".
Proof. reflexivity. Qed.

Example symbolic_of_nothing : octal_to_symbolic "" = Value "---------".
Proof. reflexivity. Qed.

Example symbolic_of_nine :
  octal_to_symbolic "9" =
  AnsibleFilterError "octal_to_symbolic: Invalid octal '9'".
Proof. reflexivity. Qed.

Example octal_of_short :
  symbolic_to_octal "rwx" =
  AnsibleFilterError "symbolic_to_octal: Expected 9 characters, got 3".
Proof. reflexivity. Qed.

(** A leading zero is lost on the way back. *)
Example leading_zero_lost :
  octal_to_symbolic "0644" = Value "rw-r--r--" /\
  symbolic_to_octal "rw-r--r--" = Value "644".
Proof. split; reflexivity. Qed.

Lemma C9_witness :
  octal_mode "755" = true /\
  octal_to_symbolic "755" = Value "rwxr-xr-x" /\
  symbolic_to_octal "rwxr-xr-x" = Value "755".
Proof.
  split; [reflexivity|].
  destruct (C9_octal_round_trip "755" eq_refl) as (sym & Hto & _ & Hback).
  assert (Hsym : sym = "rwxr-xr-x")
    by (vm_compute in Hto; injection Hto as <-; reflexivity).
  rewrite Hsym in Hback. split; [reflexivity | exact Hback].
Defined.

(** *** [calculate_disk_usage_percent] *)

Section DiskUsageFacts.
Variable float_of_text : string -> option float.

Local Abbreviation calc := (calculate_disk_usage_percent float_of_text).
Local Abbreviation to_float := (py_float float_of_text).

(** [float()] never divides. *)
Lemma py_float_no_division (v : pyobj) :
  to_float v <> Fails ZeroDivisionError.
Proof.
  destruct v as [|b|z|f|s]; cbn [py_float]; try discriminate.
  - unfold float_of_int.
    by destruct (binary_normalize prec emax z 0 false).
  - by destruct (float_of_text s).
Qed.

(** C10, as amended. When [float()] converts both arguments: a zero
    total gives 0.0, in particular the integer 0, and a non-zero total
    gives [(used / total) * 100] rounded to two places; and the filter
    error is raised only when [float()] rejects an argument. *)
Theorem C10_usage_percent (used total : pyobj) (u t : float) :
  to_float used = Done u ->
  to_float total = Done t ->
  calc used (PyInt 0) = Value 0%float /\
  (PrimFloat.eqb t 0 = true -> calc used total = Value 0%float) /\
  (PrimFloat.eqb t 0 = false ->
   calc used total = Value (py_round (u / t * 100) 2)) /\
  (forall a b msg, calc a b = AnsibleFilterError msg ->
                   rejected float_of_text a \/
                   rejected float_of_text b).
Proof.
  intros Hused Htotal.
  unfold calculate_disk_usage_percent, usage_percent, py_truediv.
  split; [by rewrite Hused|].
  rewrite Hused, Htotal.
  split; [by intros ->|]. split; [by intros ->|].
  intros a b msg. unfold rejected.
  pose proof (py_float_no_division a) as Ha.
  pose proof (py_float_no_division b) as Hb.
  destruct (py_float float_of_text a) as [fa|[]]; cbn [caught]; auto;
    try discriminate; try done.
  destruct (py_float float_of_text b) as [fb|[]]; cbn [caught]; auto;
    try discriminate; try done.
  destruct (PrimFloat.eqb fb 0); discriminate.
Qed.

End DiskUsageFacts.

(** 0.125 rounds to the float nearest to 0.12. *)
Example round_ties_to_even :
  py_round 0.125 2 = 0x1.eb851eb851eb8p-4%float.
Proof. reflexivity. Qed.

Example round_keeps_infinity : py_round infinity 2 = infinity.
Proof. reflexivity. Qed.

Example third_of_disk :
  calculate_disk_usage_percent integer_literal (PyInt 1) (PyInt 3) =
  Value 0x1.0aa3d70a3d70ap+5%float.   (* the float nearest to 33.33 *)
Proof. reflexivity. Qed.

Example usage_of_nothing :
  calculate_disk_usage_percent integer_literal PyNone (PyInt 0) =
  AnsibleFilterError "calculate_disk_usage_percent: Invalid input".
Proof. reflexivity. Qed.

Lemma C10_witness :
  py_float integer_literal (PyInt 50) = Done 50%float /\
  py_float integer_literal (PyText "200") = Done 200%float /\
  calculate_disk_usage_percent integer_literal (PyInt 50) (PyInt 0) =
    Value 0%float /\
  calculate_disk_usage_percent integer_literal (PyInt 50) (PyText "200") =
    Value 25%float.
Proof.
  do 2 (split; [reflexivity|]).
  destruct (C10_usage_percent integer_literal (PyInt 50) (PyText "200")
              50%float 200%float eq_refl eq_refl) as (Hzero & _ & Hvalue & _).
  split; [exact Hzero|]. rewrite (Hvalue eq_refl). reflexivity.
Defined.

(** C10, the claim as stated fails: an integer beyond the range of
    floats is a number, and with a zero total the call raises
    [OverflowError] instead of returning 0.0. *)
Lemma C10_counterexample_huge_integer :
  calculate_disk_usage_percent integer_literal (PyInt (10 ^ 400)) (PyInt 0) =
  Propagates OverflowError.
Proof. vm_compute. reflexivity. Qed.

(** ** Further properties of the filters *)

(** *** The permission filters on every input *)

Lemma perm_triple_cases (p shift : Z) :
  In (perm_triple p shift)
     ["---"; "--x"; "-w-"; "-wx"; "r--"; "r-x"; "rw-"; "rwx"].
Proof.
  unfold perm_triple.
  destruct (Z.eqb _ 0), (Z.eqb _ 0), (Z.eqb _ 0); cbn; tauto.
Qed.

(** X12. Whatever the input, a symbolic permission that
    [octal_to_symbolic] returns has nine characters, each one its
    position's letter or a dash. *)
Theorem X12_symbolic_always_well_formed (octal_perm sym : string) :
  octal_to_symbolic octal_perm = Value sym ->
  String.length sym = 9 /\ normalise sym = sym.
Proof.
  unfold octal_to_symbolic.
  destruct (int_base8 _) as [p|]; [|discriminate].
  intros [= <-]. cbn [map].
  pose proof (perm_triple_cases p 6) as H6.
  pose proof (perm_triple_cases p 3) as H3.
  pose proof (perm_triple_cases p 0) as H0.
  cbn [In] in H6, H3, H0.
  repeat match goal with
         | H : _ \/ _ |- _ => destruct H as [H|H]
         | H : False |- _ => destruct H
         end.
  all: rewrite <- H6, <- H3, <- H0; split; reflexivity.
Qed.

(** X13. On every string of nine ASCII characters [symbolic_to_octal]
    returns one to three octal digits ("0" or a string without leading
    zero), and [octal_to_symbolic] takes them back to the string as it
    was read: characters that are not their position's letter have become
    dashes. *)
Theorem X13_symbolic_round_trip (symbolic_perm : string) :
  all_ascii symbolic_perm = true ->
  String.length symbolic_perm = 9 ->
  exists octal,
    symbolic_to_octal symbolic_perm = Value octal /\
    (octal = "0" \/ octal_mode octal = true) /\
    octal_to_symbolic octal = Value (normalise symbolic_perm).
Proof.
  intros _ Hlen.
  destruct symbolic_perm as [|c0 [|c1 [|c2 [|c3 [|c4 [|c5 [|c6 [|c7 [|c8 [|]]]]]]]]]];
    try discriminate Hlen.
  unfold symbolic_to_octal, add_if, normalise, letters.
  cbn [String.length Nat.eqb negb String.get read_as].
  destruct (Ascii.eqb c0 "r"), (Ascii.eqb c1 "w"), (Ascii.eqb c2 "x"),
           (Ascii.eqb c3 "r"), (Ascii.eqb c4 "w"), (Ascii.eqb c5 "x"),
           (Ascii.eqb c6 "r"), (Ascii.eqb c7 "w"), (Ascii.eqb c8 "x").
  all: eexists; split; [reflexivity|]; split; [|reflexivity].
  all: first [left; reflexivity | right; reflexivity].
Qed.

(** *** Digits that do not count *)

Lemma four_digits :
  forallb (fun d => forallb (fun c1 => forallb (fun c2 => forallb (fun c3 =>
    same_symbolic (String d (String c1 (String c2 (String c3 ""))))
                  (String c1 (String c2 (String c3 ""))))
    octal_chars) octal_chars) octal_chars) octal_chars = true.
Proof. vm_compute. reflexivity. Qed.

(** X14. A fourth, leading octal digit (the set-user-id, set-group-id
    and sticky bits) does not show in the symbolic permission. *)
Theorem X14_fourth_digit_ignored (d : ascii) (mode : string) :
  is_octal_digit d = true ->
  all_octal mode = true ->
  String.length mode = 3 ->
  exists sym, octal_to_symbolic (String d mode) = Value sym /\
              octal_to_symbolic mode = Value sym.
Proof.
  intros Hd Hmode Hlen.
  destruct mode as [|c1 [|c2 [|c3 [|]]]]; try discriminate Hlen.
  cbn [all_octal] in Hmode.
  apply andb_prop in Hmode as [Hc1 [Hc2 [Hc3 _]%andb_prop]%andb_prop].
  apply octal_digit_enumerated in Hd, Hc1, Hc2, Hc3.
  pose proof four_digits as Hall.
  rewrite forallb_forall in Hall. specialize (Hall d Hd).
  rewrite forallb_forall in Hall. specialize (Hall c1 Hc1).
  rewrite forallb_forall in Hall. specialize (Hall c2 Hc2).
  rewrite forallb_forall in Hall. specialize (Hall c3 Hc3).
  unfold same_symbolic in Hall.
  destruct (octal_to_symbolic (String d _)) as [a| |]; try discriminate Hall.
  destruct (octal_to_symbolic (String c1 _)) as [b| |]; try discriminate Hall.
  apply String.eqb_eq in Hall as ->. by exists b.
Qed.

(** X15. Leading zeros of the input do not count, on values and on
    errors alike. *)
Theorem X15_leading_zeros_ignored (n : nat) (octal_perm : string) :
  octal_to_symbolic (zeros n +:+ octal_perm) = octal_to_symbolic octal_perm.
Proof.
  unfold octal_to_symbolic.
  assert (H : lstrip_zeros (zeros n +:+ octal_perm) = lstrip_zeros octal_perm)
    by (induction n as [|n IH]; [reflexivity | exact IH]).
  by rewrite H.
Qed.

(** *** [calculate_disk_usage_percent] and [format_bytes]: what escapes *)

Section Numbers.
Variable float_of_text : string -> option float.
Variable float_repr : float -> string.

Lemma float_of_int_fails (z : Z) (k : error_kind) :
  float_of_int z = Fails k -> k = OverflowError.
Proof.
  unfold float_of_int.
  destruct (binary_normalize prec emax z 0 false); congruence.
Qed.

Lemma py_float_fails (v : pyobj) (k : error_kind) :
  py_float float_of_text v = Fails k ->
  (k = TypeError /\ v = PyNone) \/
  (k = ValueError /\ exists s, v = PyText s /\ float_of_text s = None) \/
  (k = OverflowError /\ exists z, v = PyInt z).
Proof.
  destruct v as [|b|z|f|s]; cbn [py_float]; try discriminate.
  - intros [= <-]. auto.
  - intros H. apply float_of_int_fails in H as ->. eauto 6.
  - destruct (float_of_text s) eqn:Hs; [discriminate|].
    intros [= <-]. eauto 8.
Qed.

(** X16. [calculate_disk_usage_percent] raises the filter error with one
    fixed message; the only exception that escapes it is the
    [OverflowError] of an integer argument. No division error escapes. *)
Theorem X16_usage_percent_escapes (used total : pyobj) :
  match calculate_disk_usage_percent float_of_text used total with
  | Value _ => True
  | AnsibleFilterError msg =>
      msg = "calculate_disk_usage_percent: Invalid input"
  | Propagates k =>
      k = OverflowError /\ ((exists z, used = PyInt z) \/ exists z, total = PyInt z)
  end.
Proof.
  unfold calculate_disk_usage_percent, usage_percent, py_truediv.
  destruct (py_float float_of_text used) as [u|ku] eqn:Hu.
  - destruct (py_float float_of_text total) as [t|kt] eqn:Ht.
    + by destruct (PrimFloat.eqb t 0).
    + apply py_float_fails in Ht
        as [[-> _]|[[-> _]|[-> Hz]]]; cbn [caught]; auto.
    - apply py_float_fails in Hu
        as [[-> _]|[[-> _]|[-> Hz]]]; cbn [caught]; auto.
Qed.



(** The loop of [format_bytes] stops below 1024 or at the last unit. *)
Lemma scale_stops (larger : list string) (value : float) (unit : string) :
  let '(scaled, final) := scale value unit larger in
  In final (unit :: larger) /\
  (PrimFloat.leb 1024 scaled = false \/
   last (unit :: larger) = Some final).
Proof.
  revert value unit. induction larger as [|next rest IH]; intros value unit.
  - cbn. auto.
  - cbn [scale]. destruct (PrimFloat.leb 1024 value) eqn:Hle.
    + specialize (IH (value / 1024)%float next).
      destruct (scale _ next rest) as [scaled final].
      destruct IH as [Hin Hstop]. split; [by right|].
      destruct Hstop as [Hlow|Hlast]; [by left | by right].
    + split; [by left | by left].
Qed.

(** X18. The loop of [format_bytes] ends on one of the six units, with a
    value below 1024 unless the unit is the last; a value that is not at
    least 1024 (negative numbers, NaN) is left as it is, in bytes. *)
Theorem X18_format_bytes_unit (value : float) :
  let '(scaled, unit) := scale value "B" ["KB"; "MB"; "GB"; "TB"; "PB"] in
  In unit units /\
  (PrimFloat.leb 1024 scaled = false \/ unit = "PB") /\
  (PrimFloat.leb 1024 value = false -> scaled = value /\ unit = "B").
Proof.
  pose proof (scale_stops ["KB"; "MB"; "GB"; "TB"; "PB"] value "B") as H.
  destruct (scale value "B" _) as [scaled unit] eqn:Hscale.
  destruct H as [Hin Hstop]. split; [exact Hin|].
  split; [destruct Hstop as [Hlow|Hlast]; [by left | right; by injection Hlast]|].
  intros Hlow. cbn [scale] in Hscale. rewrite Hlow in Hscale.
  by injection Hscale as <- <-.
Qed.

Lemma multiples_enumerated :
  forallb (fun i => forallb (multiple_ok float_of_text float_repr i) (seq 1 1023)) (seq 0 6) = true.
Proof. vm_compute. reflexivity. Qed.

(** X19. An exact multiple [k * 1024 ^ i] of a unit, for [k] from 1 to
    1023, is printed as [k.00] and that unit, at the default precision. *)
Theorem X19_format_bytes_exact_multiples (i : nat) (k : Z) (unit : string) :
  units !! i = Some unit ->
  (1 <= k < 1024)%Z ->
  format_bytes float_of_text float_repr (PyInt (k * 1024 ^ Z.of_nat i)) 2 =
  Value (pretty k +:+ ".00 " +:+ unit).
Proof.
  intros Hunit Hk.
  pose proof multiples_enumerated as Hall.
  rewrite forallb_forall in Hall.
  assert (Hi : In i (seq 0 6)).
  { apply in_seq. apply lookup_lt_Some in Hunit. cbn in Hunit. lia. }
  specialize (Hall i Hi). rewrite forallb_forall in Hall.
  assert (Hin : In (Z.to_nat k) (seq 1 1023)) by (apply in_seq; lia).
  specialize (Hall _ Hin). unfold multiple_ok in Hall.
  rewrite Hunit, Z2Nat.id in Hall by lia.
  destruct (format_bytes _ _ _ _) as [text| |]; try discriminate Hall.
  by apply String.eqb_eq in Hall as ->.
Qed.

End Numbers.

Lemma X12_witness :
  octal_to_symbolic "4755" = Value "rwxr-xr-x" /\
  String.length "rwxr-xr-x" = 9 /\
  normalise "rwxr-xr-x" = "rwxr-xr-x".
Proof.
  split; [reflexivity|].
  exact (X12_symbolic_always_well_formed "4755" "rwxr-xr-x" eq_refl).
Defined.

(** The sticky-bit letter in the last position is read as a dash. *)
Lemma X13_witness :
  all_ascii "rwxr-xr-t" = true /\
  String.length "rwxr-xr-t" = 9 /\
  symbolic_to_octal "rwxr-xr-t" = Value "754" /\
  octal_to_symbolic "754" = Value "rwxr-xr--".
Proof.
  do 2 (split; [reflexivity|]).
  destruct (X13_symbolic_round_trip "rwxr-xr-t" eq_refl eq_refl)
    as (octal & Hto & _ & Hback).
  assert (Hoctal : octal = "754")
    by (vm_compute in Hto; injection Hto as <-; reflexivity).
  rewrite Hoctal in Hback. split; [reflexivity | exact Hback].
Defined.

Lemma X14_witness :
  is_octal_digit "4" = true /\
  all_octal "755" = true /\
  octal_to_symbolic "4755" = octal_to_symbolic "755".
Proof.
  do 2 (split; [reflexivity|]).
  destruct (X14_fourth_digit_ignored "4" "755" eq_refl eq_refl eq_refl)
    as (sym & Hfour & Hthree).
  rewrite Hfour, Hthree. reflexivity.
Defined.

(** The example of the docstring: 1073741824 bytes. *)
Lemma X19_witness :
  units !! 3 = Some "GB" /\
  format_bytes integer_literal (fun _ => "") (PyInt 1073741824) 2 =
    Value "1.00 GB".
Proof.
  split; [reflexivity|].
  exact (X19_format_bytes_exact_multiples integer_literal (fun _ => "")
           3 1 "GB" eq_refl (conj (Z.le_refl 1) eq_refl)).
Defined.

End FilterFacts.
